(** * HMDB51 clip dataset and batching loader (src/dataset.py)

    A shallow embedding of [dataset.py]: the [HMDB51] dataset class, which
    builds a labelled sample list from a train/test directory split and hands
    it to torchvision's [VideoClips], and [BuildDataLoader], which configures
    a [DataLoader] and defines the collation function [collect_fn].

    Python values are modelled as follows.
    - [int] is [Z]; [str] is [string], compared code point by code point;
    - a [list] is a [list], indexed the way Python indexes (negative indices
      count from the end, anything else raises [IndexError]);
    - a [dict] is an association list in insertion order;
    - an exception is a constructor of [exn], and code that can raise
      returns a [result];
    - the directory tree and torchvision's [VideoClips] are interfaces, type
      classes whose operations the code calls; [os.path.join] and
      [torch.stack] are functions, and one pass of torch's [DataLoader] is
      modelled from what the specification says of it. *)

From Stdlib Require Import String Ascii List ZArith Lia Bool Arith.
From Stdlib Require Import Sorting.Sorted Sorting.Permutation.
Import ListNotations.

Open Scope string_scope.
Open Scope list_scope.
Open Scope Z_scope.

Set Implicit Arguments.

(** ** Exceptions and the error monad *)

Inductive exn : Set :=
| IndexError
| KeyError
| RuntimeError
| OSError
| ValueError.

Inductive result (A : Type) : Type :=
| Ok (a : A)
| Raise (e : exn).

Arguments Ok {A} a.
Arguments Raise {A} e.

Definition bind {A B : Type} (r : result A) (k : A -> result B) : result B :=
  match r with
  | Ok a => k a
  | Raise e => Raise e
  end.

Declare Scope result_scope.
Delimit Scope result_scope with result.

Notation "x <- c1 ;; c2" := (bind c1 (fun x => c2))
  (at level 100, c1 at next level, right associativity) : result_scope.
Notation "' pat <- c1 ;; c2" := (bind c1 (fun x => match x with pat => c2 end))
  (at level 100, pat pattern, c1 at next level, right associativity) : result_scope.

(** [for x in l: s = body(x, s)], where the body may raise. *)
Fixpoint for_each {A S : Type} (l : list A) (body : A -> S -> result S) (s : S)
  : result S :=
  match l with
  | [] => Ok s
  | x :: l' => bind (body x s) (for_each l' body)
  end.

(** ** Python sequences *)

(** [l[i]]: a non-negative index counts from the front, a negative one from
    the end, and an index outside [-len(l), len(l))] raises [IndexError]. *)
Definition py_getitem {A : Type} (l : list A) (i : Z) : result A :=
  let n := Z.of_nat (length l) in
  let j := if i <? 0 then i + n else i in
  if (0 <=? j) && (j <? n) then
    match nth_error l (Z.to_nat j) with
    | Some a => Ok a
    | None => Raise IndexError
    end
  else Raise IndexError.

(** [enumerate(l, start)] *)
Fixpoint enumerate_from {A : Type} (start : Z) (l : list A) : list (Z * A) :=
  match l with
  | [] => []
  | x :: l' => (start, x) :: enumerate_from (start + 1) l'
  end.

Definition enumerate {A : Type} (l : list A) : list (Z * A) := enumerate_from 0 l.

(** [range(n)] *)
Definition range (n : nat) : list Z := map Z.of_nat (seq 0 n).

(** ** Ordering of Python values and [sorted] *)

(** [sorted(l)] is a stable sort that only ever asks [x < y].  On the total
    orders used here the stable sorted permutation is unique, so any stable
    algorithm models it; this one inserts each element in front of the first
    one that is not smaller. *)
Section Sorted.
Variable A : Type.
Variable ltb : A -> A -> bool.

Fixpoint insert (x : A) (l : list A) : list A :=
  match l with
  | [] => [x]
  | y :: l' => if ltb y x then y :: insert x l' else x :: y :: l'
  end.

Fixpoint sorted (l : list A) : list A :=
  match l with
  | [] => []
  | x :: l' => insert x (sorted l')
  end.
End Sorted.

(** [a] may stand before [b] in a sorted list: [b < a] does not hold. *)
Definition le {A : Type} (ltb : A -> A -> bool) (a b : A) : Prop :=
  ltb b a = false.

(** [a < b] on [str]. *)
Definition str_ltb (a b : string) : bool := String.ltb a b.

(** Comparison of two lists of [str]: the first position where they differ
    decides, and a proper prefix is smaller. *)
Fixpoint list_compare (a b : list string) : comparison :=
  match a, b with
  | [], [] => Eq
  | [], _ :: _ => Lt
  | _ :: _, [] => Gt
  | x :: a', y :: b' =>
      match String.compare x y with
      | Eq => list_compare a' b'
      | c => c
      end
  end.

(** One item of [os.walk]: [(dirpath, dirnames, filenames)]. *)
Definition walk_entry : Type := string * list string * list string.

(** Comparison of two such tuples, component by component. *)
Definition walk_entry_compare (a b : walk_entry) : comparison :=
  let '(d1, s1, f1) := a in
  let '(d2, s2, f2) := b in
  match String.compare d1 d2 with
  | Eq => match list_compare s1 s2 with
          | Eq => list_compare f1 f2
          | c => c
          end
  | c => c
  end.

Definition walk_entry_ltb (a b : walk_entry) : bool :=
  match walk_entry_compare a b with
  | Lt => true
  | _ => false
  end.

(** ** [dict] with [str] keys, in insertion order *)

Section Dict.
Variable V : Type.

Definition dict : Type := list (string * V).

(** [d[k] = v]: an existing key keeps its place and takes the new value, a
    new key goes to the end. *)
Fixpoint dict_set (d : dict) (k : string) (v : V) : dict :=
  match d with
  | [] => [(k, v)]
  | (k', v') :: d' =>
      if String.eqb k' k then (k', v) :: d' else (k', v') :: dict_set d' k v
  end.

Fixpoint dict_find (d : dict) (k : string) : option V :=
  match d with
  | [] => None
  | (k', v') :: d' => if String.eqb k' k then Some v' else dict_find d' k
  end.

(** [d[k]], which raises [KeyError] when [k] is missing. *)
Definition dict_get (d : dict) (k : string) : result V :=
  match dict_find d k with
  | Some v => Ok v
  | None => Raise KeyError
  end.

(** [d.keys()] *)
Definition dict_keys (d : dict) : list string := map fst d.
End Dict.

(** ** [os.path.join] (posixpath) for two components *)

Definition starts_with_sep (s : string) : bool :=
  match s with
  | String c _ => Ascii.eqb c "/"%char
  | EmptyString => false
  end.

Fixpoint ends_with_sep (s : string) : bool :=
  match s with
  | EmptyString => false
  | String c EmptyString => Ascii.eqb c "/"%char
  | String _ s' => ends_with_sep s'
  end.

Definition os_path_join (a b : string) : string :=
  if starts_with_sep b then b
  else if (String.eqb a "") || ends_with_sep a then (a ++ b)%string
  else (a ++ "/" ++ b)%string.

(** ** The libraries the module calls *)

(** The directory tree, seen through the three calls the constructor makes.
    [list_dir] is torchvision's: the names of the directories directly under
    a path, an error when the path cannot be listed.  [os_walk top] is
    [os.walk(top, followlinks=True)]; it skips what it cannot read. *)
Class FileSystem : Type := {
  list_dir : string -> result (list string);
  os_walk : string -> list walk_entry;
  os_path_isfile : string -> bool
}.

(** The arguments [__init__] passes on to [VideoClips] unchanged. *)
Record clip_args (Metadata : Type) : Type := {
  frames_per_clip : Z;
  step_between_clips : Z;
  frame_rate : option Z;
  _precomputed_metadata : option Metadata;
  num_workers : Z;
  _video_width : Z;
  _video_height : Z;
  _video_min_dimension : Z;
  _audio_samples : Z
}.

(** torchvision's [VideoClips]: the clip collection.  [vc_get_clip c idx] is
    [c.get_clip(idx)], a tuple [(video, audio, info, video_idx)];
    [vc_video_paths c] is the attribute [c.video_paths], the source videos
    that [video_idx] counts; [vc_num_clips c] is [c.num_clips()], which
    raises when the collection has no count to give (it does on a collection
    of no video).  The constructor decodes the files it is given: an
    instance stands for the decoder together with what the video files
    hold, and [FileSystem] for the names in the tree only. *)
Class VideoClipsAPI : Type := {
  Video : Type;
  Audio : Type;
  Info : Type;
  Metadata : Type;
  VC : Type;
  VideoClips : list string -> clip_args Metadata -> VC;
  vc_metadata : VC -> Metadata;
  vc_subset : VC -> list Z -> VC;
  vc_num_clips : VC -> result Z;
  vc_get_clip : VC -> Z -> result (Video * Audio * Info * Z);
  vc_video_paths : VC -> list string
}.

(** * class HMDB51 *)

Module HMDB51.
Section HMDB51.
Context {FS : FileSystem} {API : VideoClipsAPI}.

(** The attributes [__init__] assigns.  Those the base class
    [VisionDataset] sets ([root] and its own transforms) are left out: no
    method of [HMDB51] reads them. *)
Record t : Type := {
  samples : list (string * Z);
  train : bool;
  classes : list string;
  video_clips_metadata : Metadata;
  indices : list Z;
  video_clips : VC;
  transform : option (Video -> Video)
}.

(** Lines 74-78. *)
Definition get_indices (video_list : list string) : list Z :=
  fold_left
    (fun indices '(video_index, video_path) => indices ++ [video_index])
    (enumerate video_list) [].

(** Lines 33-36: the directory of the split. *)
Definition split_root (root : string) (train : bool) : string :=
  if train then (root ++ "/train")%string else (root ++ "/test")%string.

(** Line 38: [{class_: i for (i, class_) in enumerate(classes)}]. *)
Definition class_to_idx_of (classes : list string) : dict Z :=
  fold_left (fun d '(i, class_) => dict_set d class_ i) (enumerate classes) [].

(** Lines 44-48: the files of one directory of the walk. *)
Definition collect_dir (class_index : Z) (samples : list (string * Z))
  (entry : walk_entry) : list (string * Z) :=
  let '(root_curr, _, fnames) := entry in
  fold_left
    (fun samples fname =>
       let path := os_path_join root_curr fname in
       if os_path_isfile path then samples ++ [(path, class_index)]
       else samples)
    (sorted str_ltb fnames) samples.

(** Lines 41-48: the body of the loop over the classes. *)
Definition collect_class (root : string) (class_to_idx : dict Z)
  (target_class : string) (samples : list (string * Z))
  : result (list (string * Z)) :=
  (class_index <- dict_get class_to_idx target_class;;
   let target_dir := os_path_join root target_class in
   Ok (fold_left (collect_dir class_index)
         (sorted walk_entry_ltb (os_walk target_dir)) samples))%result.

(** Lines 38-48: [self.samples] once the loops are over. *)
Definition build_samples (root : string) (classes : list string)
  : result (list (string * Z)) :=
  let class_to_idx := class_to_idx_of classes in
  for_each (sorted str_ltb (dict_keys class_to_idx))
    (collect_class root class_to_idx) [].

(** Lines 27-68, with the value bound to the local [extensions] (line 32)
    taken as an argument. *)
Definition init_with (extensions : list string) (root : string)
  (args : clip_args Metadata) (train : bool)
  (transform : option (Video -> Video)) : result t :=
  (let root := split_root root train in
   names <- list_dir root;;
   let classes := sorted str_ltb names in
   samples <- build_samples root classes;;
   let video_paths := map fst samples in
   let video_clips := VideoClips video_paths args in
   let indices := get_indices video_paths in
   Ok {| samples := samples;
         train := train;
         classes := classes;
         video_clips_metadata := vc_metadata video_clips;
         indices := indices;
         video_clips := vc_subset video_clips indices;
         transform := transform |})%result.

(** Line 32 binds [extensions] to [('avi',)]. *)
Definition __init__ := init_with ["avi"].

(** Methods run on [self]: they return a value or raise, and hand back the
    object as they leave it. *)
Definition method (A : Type) : Type := t -> result A * t.

Definition ret {A : Type} (a : A) : method A := fun self => (Ok a, self).

Definition mbind {A B : Type} (m : method A) (k : A -> method B) : method B :=
  fun self =>
    match m self with
    | (Ok a, self') => k a self'
    | (Raise e, self') => (Raise e, self')
    end.

(** [self.attr] *)
Definition getattr {A : Type} (attr : t -> A) : method A :=
  fun self => (Ok (attr self), self).

(** [self.attr = v], which no method below does. *)
Definition setattr (upd : t -> t) : method unit :=
  fun self => (Ok tt, upd self).

(** A call that returns or raises and does not touch [self]. *)
Definition call {A : Type} (r : result A) : method A := fun self => (r, self).

Declare Scope method_scope.
Delimit Scope method_scope with method.
Notation "x <- c1 ;; c2" := (mbind c1 (fun x => c2))
  (at level 100, c1 at next level, right associativity) : method_scope.
Notation "' pat <- c1 ;; c2" :=
  (mbind c1 (fun x => match x with pat => c2 end))
  (at level 100, pat pattern, c1 at next level, right associativity)
  : method_scope.

(** Lines 70-72. *)
Definition metadata : method Metadata := getattr video_clips_metadata.

(** Lines 80-81. *)
Definition __len__ : method Z :=
  (vc <- getattr video_clips;;
   call (vc_num_clips vc))%method.

(** Lines 83-91. *)
Definition __getitem__ (idx : Z) : method (Video * Z) :=
  (vc <- getattr video_clips;;
   '(video, _, _, video_idx) <- call (vc_get_clip vc idx);;
   indices <- getattr indices;;
   sample_index <- call (py_getitem indices video_idx);;
   samples <- getattr samples;;
   '(_, class_index) <- call (py_getitem samples sample_index);;
   transform <- getattr transform;;
   let video := match transform with
                | Some f => f video
                | None => video
                end in
   ret (video, class_index))%method.
End HMDB51.
End HMDB51.

(** * torch *)

Section Torch.
Variable elt : Type.

(** A tensor: its shape, and its elements in row-major order. *)
Record Tensor : Type := {
  shape : list nat;
  data : list elt
}.

(** Modelled from the spec: [torch.stack(tensors)], which is torch's and
    not part of dataset.py.  The tensors are stacked along a new leading
    dimension; they must all have one shape, and a mismatch fails at this
    step.  As torch documents it, an empty list fails too ("stack expects
    a non-empty TensorList"); both failures are [RuntimeError]. *)
Definition torch_stack (tensors : list Tensor) : result Tensor :=
  match tensors with
  | [] => Raise RuntimeError
  | first :: rest =>
      if forallb
           (fun u => if list_eq_dec Nat.eq_dec (shape u) (shape first)
                     then true else false) rest
      then Ok {| shape := length tensors :: shape first;
                 data := concat (map data tensors) |}
      else Raise RuntimeError
  end.

(** The number of elements of a tensor of a given shape. *)
Definition numel (s : list nat) : nat := fold_right Nat.mul 1%nat s.

(** A tensor holds as many elements as its shape says. *)
Definition well_formed (x : Tensor) : Prop := length (data x) = numel (shape x).

(** [x[k]]: the slice at position [k] of the leading dimension. *)
Definition tensor_select (x : Tensor) (k : nat) : option Tensor :=
  match shape x with
  | [] => None
  | n :: s =>
      if (k <? n)%nat
      then Some {| shape := s;
                   data := firstn (numel s) (skipn (k * numel s) (data x)) |}
      else None
  end.
End Torch.

(** What [torch.utils.data.DataLoader] asks of a dataset: [len(dataset)]
    and [dataset[idx]]. *)
Class Dataset (D Item : Type) : Type := {
  ds_len : D -> result Z;
  ds_getitem : D -> Z -> result Item
}.

#[export] Instance HMDB51_Dataset {FS : FileSystem} {API : VideoClipsAPI}
  : Dataset HMDB51.t (Video * Z) := {
  ds_len := fun self => fst (HMDB51.__len__ self);
  ds_getitem := fun self idx => fst (HMDB51.__getitem__ idx self)
}.

(** Python objects have an identity: a constructor call takes the next free
    one. *)
Record object (A : Type) : Type := {
  py_id : nat;
  value_of : A
}.

Definition new {A : Type} (a : A) (next : nat) : object A * nat :=
  ({| py_id := next; value_of := a |}, S next).

(** * class BuildDataLoader *)

Module BuildDataLoader.
Section BuildDataLoader.
Variables elt Label D : Type.
Context {DS : Dataset D (Tensor elt * Label)}.

(** Lines 97-101. *)
Record t : Type := {
  dataset : D;
  batch_size : Z;
  shuffle : bool;
  num_workers : Z
}.

Definition __init__ (dataset : D) (batch_size : Z) (shuffle : bool)
  (num_workers : Z) : t :=
  {| dataset := dataset;
     batch_size := batch_size;
     shuffle := shuffle;
     num_workers := num_workers |}.

(** The values of the batch record. *)
Inductive value : Type :=
| VTensor (x : Tensor elt)
| VList (l : list Label).

(** Lines 109-122. *)
Definition collect_fn (self : t) (batch : list (Tensor elt * Label))
  : result (dict value) :=
  (let '(video_list, label_list) :=
     fold_left
       (fun '(video_list, label_list) '(video, index) =>
          (video_list ++ [video], label_list ++ [index]))
       batch ([], []) in
   videos <- torch_stack video_list;;
   let data := dict_set (dict_set [] "videos" (VTensor videos))
                 "labels" (VList label_list) in
   Ok data)%result.

(** The arguments of [DataLoader(...)] on lines 125-129, as the
    [DataLoader] object keeps them; [drop_last] is left at its default. *)
Record DataLoader : Type := {
  dl_dataset : D;
  dl_batch_size : Z;
  dl_shuffle : bool;
  dl_num_workers : Z;
  dl_collate_fn : list (Tensor elt * Label) -> result (dict value);
  dl_drop_last : bool
}.

(** Modelled from the spec: the constructor of the batch-iteration
    collaborator, [DataLoader(dataset, batch_size=.., shuffle=..,
    num_workers=.., collate_fn=..)], which is torch's and not part of
    dataset.py; its failures come out of the caller as they are.  As torch
    documents them, in the order of its checks: a negative worker count is
    a [ValueError]; with [shuffle] set the sampler asks [len(dataset)], whose
    error comes out, and a length that is not positive is a [ValueError];
    a batch size that is not positive is a [ValueError].  Without [shuffle]
    the length is not asked before a pass. *)
Definition DataLoader_init (dataset : D) (batch_size : Z) (shuffle : bool)
  (num_workers : Z)
  (collate_fn : list (Tensor elt * Label) -> result (dict value))
  : result DataLoader :=
  if num_workers <? 0 then Raise ValueError
  else
    (_ <- (if shuffle
           then (n <- ds_len dataset;;
                 if n <=? 0 then Raise ValueError else Ok tt)
           else Ok tt);;
     if batch_size <=? 0 then Raise ValueError
     else Ok {| dl_dataset := dataset;
                dl_batch_size := batch_size;
                dl_shuffle := shuffle;
                dl_num_workers := num_workers;
                dl_collate_fn := collate_fn;
                dl_drop_last := false |})%result.

(** Lines 124-129: the object the constructor returns is a new one; when
    the constructor raises, no object is made. *)
Definition loader (self : t) (next : nat)
  : result (object DataLoader) * nat :=
  match DataLoader_init (dataset self) (batch_size self) (shuffle self)
          (num_workers self) (collect_fn self) with
  | Ok dl => let '(o, next') := new dl next in (Ok o, next')
  | Raise e => (Raise e, next)
  end.

(** Modelled from the spec: one pass over a [DataLoader], which is torch's
    and not part of dataset.py.  The order of the indices is a permutation
    drawn for the pass when [shuffle] is set and [0 .. length-1] otherwise;
    the indices are cut into batches of [batch_size], the last one short
    when [length] is not a multiple; every batch is fetched item by item
    and handed to the collation function. *)
Definition dl_sampler (randperm : nat -> list Z) (dl : DataLoader)
  : result (list Z) :=
  (n <- ds_len (dl_dataset dl);;
   Ok (if dl_shuffle dl then randperm (Z.to_nat n)
       else range (Z.to_nat n)))%result.

(** Modelled from the spec: the indices of the pass cut into batches, a
    batch closed as soon as it holds [batch_size] indices and the rest, when
    there is one and [drop_last] is off, closed at the end. *)
Fixpoint batch_loop (batch_size : Z) (drop_last : bool) (sampler : list Z)
  (batch : list Z) : list (list Z) :=
  match sampler with
  | [] =>
      if (0 <? Z.of_nat (length batch)) && negb drop_last
      then [batch] else []
  | idx :: sampler' =>
      let batch := batch ++ [idx] in
      if Z.of_nat (length batch) =? batch_size
      then batch :: batch_loop batch_size drop_last sampler' []
      else batch_loop batch_size drop_last sampler' batch
  end.

(** Modelled from the spec: the batches of indices of one pass. *)
Definition dl_batches (randperm : nat -> list Z) (dl : DataLoader)
  : result (list (list Z)) :=
  (sampler <- dl_sampler randperm dl;;
   Ok (batch_loop (dl_batch_size dl) (dl_drop_last dl) sampler []))%result.

(** Modelled from the spec: [[dataset[idx] for idx in idxs]]. *)
Fixpoint fetch_items (d : D) (idxs : list Z)
  : result (list (Tensor elt * Label)) :=
  match idxs with
  | [] => Ok []
  | idx :: idxs' =>
      (item <- ds_getitem d idx;;
       items <- fetch_items d idxs';;
       Ok (item :: items))%result
  end.

(** Modelled from the spec: one batch, fetched and collated. *)
Definition dl_fetch (dl : DataLoader) (idxs : list Z) : result (dict value) :=
  (items <- fetch_items (dl_dataset dl) idxs;;
   dl_collate_fn dl items)%result.

(** Modelled from the spec: the batch records of one pass, each a record
    or the error its fetch or its collation raised. *)
Definition dl_pass (randperm : nat -> list Z) (dl : DataLoader)
  : result (list (result (dict value))) :=
  (batches <- dl_batches randperm dl;;
   Ok (map (dl_fetch dl) batches))%result.
End BuildDataLoader.
End BuildDataLoader.

(** * What the code relies on from [VideoClips]

    The collection is over the paths it was given; [subset] keeps the
    videos at the given positions, in that order; keeping every video
    keeps what [num_clips()] answers, a count or an error; and every index
    below the count has a clip, which comes from one of the collection's
    videos. *)
Class VideoClipsContract (API : VideoClipsAPI) : Prop := {
  new_video_paths :
    forall paths args, vc_video_paths (VideoClips paths args) = paths;
  subset_video_paths :
    forall c idxs,
      Forall (fun i => 0 <= i < Z.of_nat (length (vc_video_paths c))) idxs ->
      vc_video_paths (vc_subset c idxs)
      = map (fun i => nth (Z.to_nat i) (vc_video_paths c) "") idxs;
  subset_all_num_clips :
    forall c,
      vc_num_clips (vc_subset c (range (length (vc_video_paths c))))
      = vc_num_clips c;
  get_clip_in_range :
    forall c idx n,
      vc_num_clips c = Ok n ->
      0 <= idx < n ->
      exists video audio info video_idx,
        vc_get_clip c idx = Ok (video, audio, info, video_idx)
        /\ 0 <= video_idx < Z.of_nat (length (vc_video_paths c))
}.

(** * The sample list as the specification words it *)

Module Spec.
Section Spec.
Context {FS : FileSystem}.

(** The regular files of one directory of the walk, by file name. *)
Definition files_of_entry (entry : walk_entry) : list string :=
  let '(dirpath, _, fnames) := entry in
  filter os_path_isfile (map (os_path_join dirpath) (sorted str_ltb fnames)).

(** The regular files found under the directory of a class: the
    directories of the recursive walk in sorted order, and the files of
    each by file name. *)
Definition files_of_class (root class_ : string) : list string :=
  flat_map files_of_entry
    (sorted walk_entry_ltb (os_walk (os_path_join root class_))).

(** Every class in the order of the class list, every file of the class
    paired with the index of the class. *)
Definition samples_spec (root : string) (classes : list string)
  : list (string * Z) :=
  flat_map
    (fun '(class_index, class_) =>
       map (fun path => (path, class_index)) (files_of_class root class_))
    (enumerate classes).
End Spec.
End Spec.

(** * A client of the dataset

    The operations a caller has once the object is constructed, and the
    object after a sequence of them. *)

Module Client.
Section Client.
Context {API : VideoClipsAPI}.

Inductive op : Type :=
| Len
| Item (idx : Z)
| ReadMetadata.

Definition run_op (o : op) (self : HMDB51.t) : HMDB51.t :=
  match o with
  | Len => snd (HMDB51.__len__ self)
  | Item idx => snd (HMDB51.__getitem__ idx self)
  | ReadMetadata => snd (HMDB51.metadata self)
  end.

Definition run_ops (ops : list op) (self : HMDB51.t) : HMDB51.t :=
  fold_left (fun self o => run_op o self) ops self.
End Client.
End Client.

(** * The object after construction

    The loops of the constructor in closed form, and the object the
    constructor returns.  The facts below prove that the code computes
    them. *)

Section Constructed.
Context {FS : FileSystem} {API : VideoClipsAPI}.

(** The dictionary of line 38 part-way through: [d] so far, the rest of the
    classes [l] still to enter, the next index [start]. *)
Definition fill (d : dict Z) (start : Z) (l : list string) : dict Z :=
  fold_left (fun d '(i, class_) => dict_set d class_ i) (enumerate_from start l) d.

(** The files of a class, with the index the dictionary gives the class. *)
Definition class_samples (root : string) (class_to_idx : dict Z) (c : string)
  : list (string * Z) :=
  match dict_find class_to_idx c with
  | Some i => map (fun path => (path, i)) (Spec.files_of_class root c)
  | None => []
  end.

(** The keys of the dictionary in sorted order, every key with its files:
    what the loops of lines 40-48 go through. *)
Definition samples_of (root : string) (classes : list string)
  : list (string * Z) :=
  flat_map (class_samples root (HMDB51.class_to_idx_of classes))
    (sorted str_ltb (dict_keys (HMDB51.class_to_idx_of classes))).

(** The object [__init__] leaves when the split directory lists as [names]. *)
Definition constructed (root : string) (args : clip_args Metadata) (train : bool)
  (transform : option (Video -> Video)) (names : list string) : HMDB51.t :=
  let split := HMDB51.split_root root train in
  let classes := sorted str_ltb names in
  let samples := samples_of split classes in
  let video_paths := map fst samples in
  let video_clips := VideoClips video_paths args in
  {| HMDB51.samples := samples;
     HMDB51.train := train;
     HMDB51.classes := classes;
     HMDB51.video_clips_metadata := vc_metadata video_clips;
     HMDB51.indices := range (length samples);
     HMDB51.video_clips := vc_subset video_clips (range (length samples));
     HMDB51.transform := transform |}.
End Constructed.

(** * The script (lines 131-146) *)

Module Script.
Section Script.
Context {FS : FileSystem} {API : VideoClipsAPI}.
Variable elt : Type.

(** The clips the dataset hands to the loader are torch tensors:
    [as_tensor] reads a clip as one. *)
Variable as_tensor : Video -> Tensor elt.

(** The dataset as the loader sees it: [len(dataset)] and [dataset[idx]]. *)
Definition clip_dataset : Dataset HMDB51.t (Tensor elt * Z) := {|
  ds_len := fun self => fst (HMDB51.__len__ self);
  ds_getitem := fun self idx =>
    match fst (HMDB51.__getitem__ idx self) with
    | Ok (video, label) => Ok (as_tensor video, label)
    | Raise e => Raise e
    end
|}.

(** [HMDB51(root, frames_per_clip=n)]: the arguments the call leaves out
    take the defaults of lines 27-30. *)
Definition default_args (frames_per_clip : Z) : clip_args Metadata := {|
  frames_per_clip := frames_per_clip;
  step_between_clips := 1;
  frame_rate := None;
  _precomputed_metadata := None;
  num_workers := 1;
  _video_width := 0;
  _video_height := 0;
  _video_min_dimension := 0;
  _audio_samples := 0
|}.

(** What the script writes: [print(data)], then [print()]. *)
Inductive output : Type :=
| Printed (data : dict (BuildDataLoader.value elt Z))
| Blank.

(** Lines 144-146: the loop over the batches of the pass.  A batch that
    raises ends the script with what was written so far. *)
Fixpoint print_batches
  (batches : list (result (dict (BuildDataLoader.value elt Z))))
  (out : list output) : list output * result unit :=
  match batches with
  | [] => (out, Ok tt)
  | Ok data :: batches' => print_batches batches' (out ++ [Printed data; Blank])
  | Raise e :: _ => (out, Raise e)
  end.

(** Lines 132-146: what the script writes, and how it ends. *)
Definition main (randperm : nat -> list Z) : list output * result unit :=
  let DATA_FOLDER := "data" in
  match HMDB51.__init__ DATA_FOLDER (default_args 5) true None with
  | Raise e => ([], Raise e)
  | Ok train_dataset =>
      match HMDB51.__init__ DATA_FOLDER (default_args 5) false None with
      | Raise e => ([], Raise e)
      | Ok test_dataset =>
          let batch_size := 2 in
          let train_build_loader :=
            BuildDataLoader.__init__ train_dataset batch_size true 0 in
          match @BuildDataLoader.loader elt Z HMDB51.t clip_dataset
                  train_build_loader 0%nat with
          | (Raise e, _) => ([], Raise e)
          | (Ok train_loader, next) =>
              let test_build_loader :=
                BuildDataLoader.__init__ test_dataset batch_size false 0 in
              match @BuildDataLoader.loader elt Z HMDB51.t clip_dataset
                      test_build_loader next with
              | (Raise e, _) => ([], Raise e)
              | (Ok test_loader, next) =>
                  match @BuildDataLoader.dl_pass elt Z HMDB51.t clip_dataset
                          randperm (value_of train_loader) with
                  | Raise e => ([], Raise e)
                  | Ok batches => print_batches batches []
                  end
              end
          end
      end
  end.


(** The batch records among what was written. *)
Definition printed_records (out : list output)
  : list (dict (BuildDataLoader.value elt Z)) :=
  flat_map (fun o => match o with Printed data => [data] | Blank => [] end) out.
End Script.
End Script.

(** * A directory tree and a clip collection to run the code on *)

Module Fixture.

(** A directory tree in memory.  [Special] stands for an entry that is
    neither a directory nor a regular file (a socket, a dangling link). *)
#[warnings="-register-all"]
Inductive node : Type :=
| File
| Special
| Dir (entries : list (string * node)).

Definition is_dir (n : node) : bool :=
  match n with
  | Dir _ => true
  | _ => false
  end.

Definition dirnames (entries : list (string * node)) : list string :=
  map fst (filter (fun e => is_dir (snd e)) entries).

Definition filenames (entries : list (string * node)) : list string :=
  map fst (filter (fun e => negb (is_dir (snd e))) entries).

(** [os.walk], top-down. *)
Fixpoint walk_node (path : string) (n : node) : list walk_entry :=
  match n with
  | Dir entries =>
      (path, dirnames entries, filenames entries)
      :: flat_map (fun e => walk_node (os_path_join path (fst e)) (snd e))
           entries
  | _ => []
  end.

(** Every node of the tree with its path. *)
Fixpoint all_nodes (path : string) (n : node) : dict node :=
  (path, n)
  :: match n with
     | Dir entries =>
         flat_map (fun e => all_nodes (os_path_join path (fst e)) (snd e))
           entries
     | _ => []
     end.

Definition tree_fs (top : string) (tree : node) : FileSystem := {|
  list_dir := fun path =>
    match dict_find (all_nodes top tree) path with
    | Some (Dir entries) => Ok (dirnames entries)
    | _ => Raise OSError
    end;
  os_walk := fun path =>
    match dict_find (all_nodes top tree) path with
    | Some n => walk_node path n
    | None => []
    end;
  os_path_isfile := fun path =>
    match dict_find (all_nodes top tree) path with
    | Some File => true
    | _ => false
    end
|}.

(** A clip collection held in memory: every video with the clips cut from
    it.  [store] says which clips a path yields. *)
Definition clips : Type := list (string * list (Tensor Z)).

Fixpoint locate (c : clips) (video_idx : Z) (i : nat)
  : result (Tensor Z * unit * unit * Z) :=
  match c with
  | [] => Raise IndexError
  | (_, cs) :: c' =>
      match nth_error cs i with
      | Some video => Ok (video, tt, tt, video_idx)
      | None => locate c' (video_idx + 1) (i - length cs)%nat
      end
  end.

Definition count (c : clips) : Z :=
  Z.of_nat (length (concat (map snd c))).

Definition memory_clips (store : string -> list (Tensor Z)) : VideoClipsAPI := {|
  Video := Tensor Z;
  Audio := unit;
  Info := unit;
  Metadata := list (string * nat);
  VC := clips;
  VideoClips := fun paths _ => map (fun p => (p, store p)) paths;
  vc_metadata := fun c => map (fun v => (fst v, length (snd v))) c;
  vc_subset := fun c idxs => map (fun i => nth (Z.to_nat i) c ("", [])) idxs;
  vc_num_clips := fun c =>
    match c with
    | [] => Raise IndexError
    | _ => Ok (count c)
    end;
  vc_get_clip := fun c idx =>
    if (0 <=? idx) && (idx <? count c) then locate c 0 (Z.to_nat idx)
    else Raise IndexError;
  vc_video_paths := fun c => map fst c
|}.

(** The tree of the end-to-end scenario, with a nested directory, a file
    that is no video and an entry that is no file. *)
Definition tree : node :=
  Dir [("train",
        Dir [("walk", Dir [("c.avi", File)]);
             ("run", Dir [("b.avi", File);
                          ("notes.txt", File);
                          ("a.avi", File);
                          ("pipe", Special);
                          ("extra", Dir [("d.avi", File)])])]);
       ("test",
        Dir [("run", Dir [("e.avi", File)]);
             ("walk", Dir [])])].

Definition frame (x : Z) : Tensor Z := {| shape := [1; 1]%nat; data := [x] |}.

(** Clips per file: two from [a.avi], one from [c.avi] and from [d.avi],
    none from the others. *)
Definition store (path : string) : list (Tensor Z) :=
  if String.eqb path "data/train/run/a.avi" then [frame 10; frame 11]
  else if String.eqb path "data/train/walk/c.avi" then [frame 30]
  else if String.eqb path "data/train/run/extra/d.avi" then [frame 40]
  else [].

Definition fs : FileSystem := tree_fs "data" tree.
Definition api : VideoClipsAPI := memory_clips store.

Definition args : clip_args (@Metadata api) := {|
  frames_per_clip := 5;
  step_between_clips := 1;
  frame_rate := None;
  _precomputed_metadata := None;
  num_workers := 1;
  _video_width := 0;
  _video_height := 0;
  _video_min_dimension := 0;
  _audio_samples := 0
|}.

(** The training set of the scenario, and a loader over it. *)
Definition train_dataset : @HMDB51.t api :=
  @constructed fs api "data" args true None ["walk"; "run"].

Definition train_build_loader : BuildDataLoader.t (@HMDB51.t api) :=
  BuildDataLoader.__init__ train_dataset 3 false 0.

(** A loader configuration that [__init__] takes as it is: a negative
    worker count. *)
Definition negative_workers_loader : BuildDataLoader.t (@HMDB51.t api) :=
  BuildDataLoader.__init__ train_dataset 2 false (-1).

(** The scenario without its test split. *)
Definition train_only : node :=
  Dir [("train", Dir [("run", Dir [("a.avi", File)])])].

(** The order of a shuffled pass: here, back to front. *)
Definition backwards (n : nat) : list Z := rev (range n).

(** The test set of the scenario. *)
Definition test_dataset : @HMDB51.t api :=
  @constructed fs api "data" args false None ["run"; "walk"].

(** A transform: every element of the clip one higher. *)
Definition brighten (video : Tensor Z) : Tensor Z :=
  {| shape := shape video; data := map Z.succ (data video) |}.

Definition brightened_dataset : @HMDB51.t api :=
  @constructed fs api "data" args true (Some brighten) ["walk"; "run"].

(** The scenario with another test split: the train split is the same. *)
Definition tree_other_test : node :=
  Dir [("train",
        Dir [("walk", Dir [("c.avi", File)]);
             ("run", Dir [("b.avi", File);
                          ("notes.txt", File);
                          ("a.avi", File);
                          ("pipe", Special);
                          ("extra", Dir [("d.avi", File)])])]);
       ("test", Dir [("jump", Dir [("f.avi", File)])])].

(** Clips that do not all have one shape: the clip of [c.avi] has two
    rows. *)
Definition uneven_store (path : string) : list (Tensor Z) :=
  if String.eqb path "data/train/walk/c.avi"
  then [{| shape := [2; 1]%nat; data := [30; 31] |}]
  else store path.

Definition uneven_api : VideoClipsAPI := memory_clips uneven_store.

Definition uneven_train_dataset : @HMDB51.t uneven_api :=
  @constructed fs uneven_api "data" args true None ["walk"; "run"].

Definition uneven_test_dataset : @HMDB51.t uneven_api :=
  @constructed fs uneven_api "data" args false None ["run"; "walk"].

(** A train split without any file, and one whose only video yields no
    clip. *)
Definition empty_train : node :=
  Dir [("train", Dir [("run", Dir [])]);
       ("test", Dir [("run", Dir [("e.avi", File)])])].

Definition clipless_train : node :=
  Dir [("train", Dir [("run", Dir [("b.avi", File)])]);
       ("test", Dir [("run", Dir [("e.avi", File)])])].

Definition empty_train_dataset : @HMDB51.t api :=
  @constructed (tree_fs "data" empty_train) api "data" args true None ["run"].

Definition empty_test_dataset : @HMDB51.t api :=
  @constructed (tree_fs "data" empty_train) api "data" args false None ["run"].

Definition clipless_train_dataset : @HMDB51.t api :=
  @constructed (tree_fs "data" clipless_train) api "data" args true None
    ["run"].

Definition clipless_test_dataset : @HMDB51.t api :=
  @constructed (tree_fs "data" clipless_train) api "data" args false None
    ["run"].

End Fixture.

(** * Facts about the Python layer *)

Unset Implicit Arguments.

Lemma bind_ok {A B : Type} (r : result A) (k : A -> result B) (b : B) :
  bind r k = Ok b -> exists a, r = Ok a /\ k a = Ok b.
Proof.
  destruct r as [a | e]; simpl; intros H.
  - exists a; split; [reflexivity | exact H].
  - discriminate H.
Qed.

Lemma for_each_app {A B : Type} (g : A -> list B)
  (body : A -> list B -> result (list B))
  (l : list A) :
  (forall x s, In x l -> body x s = Ok (s ++ g x)) ->
  forall s, for_each l body s = Ok (s ++ flat_map g l).
Proof.
  induction l as [| x l IH]; intros Hbody s; simpl.
  - now rewrite app_nil_r.
  - rewrite Hbody by (left; reflexivity). simpl.
    rewrite IH by (intros; apply Hbody; right; assumption).
    now rewrite app_assoc.
Qed.

Lemma fold_left_app_each {A B : Type} (g : A -> list B)
  (step : list B -> A -> list B) (l : list A) :
  (forall s x, In x l -> step s x = s ++ g x) ->
  forall s, fold_left step l s = s ++ flat_map g l.
Proof.
  induction l as [| x l IH]; intros Hstep s; simpl.
  - now rewrite app_nil_r.
  - rewrite Hstep by (left; reflexivity).
    rewrite IH by (intros; apply Hstep; right; assumption).
    now rewrite app_assoc.
Qed.

Lemma py_getitem_nth {A : Type} (l : list A) (i : Z) (a : A) :
  0 <= i -> nth_error l (Z.to_nat i) = Some a -> py_getitem l i = Ok a.
Proof.
  intros Hi Hnth. unfold py_getitem.
  assert (Hlt : (Z.to_nat i < length l)%nat)
    by (apply nth_error_Some; rewrite Hnth; discriminate).
  destruct (i <? 0) eqn:Hneg; [apply Z.ltb_lt in Hneg; lia |].
  replace ((0 <=? i) && (i <? Z.of_nat (length l))) with true.
  - now rewrite Hnth.
  - symmetry. apply andb_true_iff. split; [apply Z.leb_le | apply Z.ltb_lt]; lia.
Qed.

Lemma enumerate_from_length {A : Type} (l : list A) (start : Z) :
  length (enumerate_from start l) = length l.
Proof.
  revert start; induction l as [| x l IH]; intros start; simpl; congruence.
Qed.

Lemma enumerate_from_app {A : Type} (l1 l2 : list A) (start : Z) :
  enumerate_from start (l1 ++ l2)
  = enumerate_from start l1 ++ enumerate_from (start + Z.of_nat (length l1)) l2.
Proof.
  revert start; induction l1 as [| x l1 IH]; intros start; simpl.
  - now rewrite Z.add_0_r.
  - rewrite IH. do 3 f_equal. lia.
Qed.

Lemma in_enumerate_from {A : Type} (l : list A) (start i : Z) (x : A) :
  In (i, x) (enumerate_from start l) <->
  start <= i /\ nth_error l (Z.to_nat (i - start)) = Some x.
Proof.
  revert start; induction l as [| y l IH]; intros start; simpl.
  - split; [tauto |]. intros [_ H]. now destruct (Z.to_nat (i - start)).
  - rewrite IH. split.
    + intros [H | [Hle Hnth]].
      * inversion H; subst. rewrite Z.sub_diag. simpl. split; [lia | reflexivity].
      * split; [lia |].
        replace (Z.to_nat (i - start)) with (S (Z.to_nat (i - (start + 1)))) by lia.
        exact Hnth.
    + intros [Hle Hnth].
      destruct (Z.eq_dec i start) as [-> | Hne].
      * rewrite Z.sub_diag in Hnth. simpl in Hnth. left. congruence.
      * right. split; [lia |].
        replace (Z.to_nat (i - start)) with (S (Z.to_nat (i - (start + 1))))
          in Hnth by lia.
        exact Hnth.
Qed.

Lemma range_length (n : nat) : length (range n) = n.
Proof. unfold range. now rewrite length_map, length_seq. Qed.

Lemma range_succ (n : nat) : range (S n) = range n ++ [Z.of_nat n].
Proof. unfold range. rewrite seq_S, map_app. reflexivity. Qed.

Lemma nth_error_range (n k : nat) :
  (k < n)%nat -> nth_error (range n) k = Some (Z.of_nat k).
Proof.
  intros Hk. unfold range. rewrite nth_error_map, nth_error_seq.
  apply Nat.ltb_lt in Hk. now rewrite Hk.
Qed.

Lemma in_range (n : nat) (i : Z) : In i (range n) <-> 0 <= i < Z.of_nat n.
Proof.
  unfold range. rewrite in_map_iff. split.
  - intros [k [<- Hk]]. apply in_seq in Hk. lia.
  - intros Hi. exists (Z.to_nat i). split; [lia |]. apply in_seq. lia.
Qed.

(** ** [sorted] *)

Section SortedFacts.
Variable A : Type.
Variable ltb : A -> A -> bool.

Lemma insert_perm (x : A) (l : list A) : Permutation (insert ltb x l) (x :: l).
Proof.
  induction l as [| y l IH]; simpl.
  - apply Permutation_refl.
  - destruct (ltb y x).
    + eapply perm_trans; [apply perm_skip, IH | apply perm_swap].
    + apply Permutation_refl.
Qed.

Lemma sorted_perm (l : list A) : Permutation (sorted ltb l) l.
Proof.
  induction l as [| x l IH]; simpl.
  - apply perm_nil.
  - eapply perm_trans; [apply insert_perm | apply perm_skip, IH].
Qed.

Lemma in_sorted (x : A) (l : list A) : In x (sorted ltb l) <-> In x l.
Proof.
  split; apply Permutation_in;
    [apply sorted_perm | apply Permutation_sym, sorted_perm].
Qed.

Lemma sorted_NoDup (l : list A) : NoDup l -> NoDup (sorted ltb l).
Proof.
  intros H. eapply Permutation_NoDup; [apply Permutation_sym, sorted_perm | exact H].
Qed.

Lemma insert_head (x : A) (l : list A) : HdRel (le ltb) x l -> insert ltb x l = x :: l.
Proof.
  intros H. destruct l as [| y l]; simpl; [reflexivity |].
  inversion H as [| ? ? Hxy]; subst. unfold le in Hxy. now rewrite Hxy.
Qed.

(** Sorting a list that is in order leaves it as it is. *)
Lemma sorted_of_Sorted (l : list A) : Sorted (le ltb) l -> sorted ltb l = l.
Proof.
  induction 1 as [| x l Hs IH Hhd]; simpl; [reflexivity |].
  rewrite IH. now apply insert_head.
Qed.

Hypothesis ltb_asym : forall a b, ltb a b = true -> ltb b a = false.

Lemma insert_Sorted (x : A) (l : list A) :
  Sorted (le ltb) l -> Sorted (le ltb) (insert ltb x l).
Proof.
  induction 1 as [| y l Hs IH Hhd]; simpl.
  - repeat constructor.
  - destruct (ltb y x) eqn:Hyx.
    + constructor; [exact IH |].
      destruct l as [| z l]; simpl.
      * constructor. unfold le. now apply ltb_asym.
      * inversion Hhd; subst. destruct (ltb z x).
        -- constructor. assumption.
        -- constructor. unfold le. now apply ltb_asym.
    + constructor; [constructor; assumption |]. constructor. exact Hyx.
Qed.

Lemma sorted_Sorted (l : list A) : Sorted (le ltb) (sorted ltb l).
Proof.
  induction l as [| x l IH]; simpl; [constructor | now apply insert_Sorted].
Qed.

Lemma sorted_idempotent (l : list A) : sorted ltb (sorted ltb l) = sorted ltb l.
Proof. apply sorted_of_Sorted, sorted_Sorted. Qed.
End SortedFacts.

(** ** The order of [str] and of the tuples of [os.walk] *)

Lemma ascii_compare_trans (c : comparison) (x y z : ascii) :
  Ascii.compare x y = c -> Ascii.compare y z = c -> Ascii.compare x z = c.
Proof.
  unfold Ascii.compare. destruct c; intros H1 H2.
  - apply N.compare_eq_iff in H1, H2. apply N.compare_eq_iff. congruence.
  - apply N.compare_lt_iff in H1. apply N.compare_lt_iff in H2.
    apply N.compare_lt_iff. eapply N.lt_trans; eassumption.
  - apply N.compare_gt_iff in H1. apply N.compare_gt_iff in H2.
    apply N.compare_gt_iff. eapply N.lt_trans; eassumption.
Qed.

Lemma str_compare_refl (a : string) : String.compare a a = Eq.
Proof.
  induction a as [| c a IH]; simpl; [reflexivity |].
  unfold Ascii.compare. now rewrite N.compare_refl.
Qed.

Lemma str_compare_lt_trans (a b c : string) :
  String.compare a b = Lt -> String.compare b c = Lt -> String.compare a c = Lt.
Proof.
  revert b c; induction a as [| x a IH]; intros [| y b] [| z c]; simpl;
    try discriminate; try reflexivity.
  destruct (Ascii.compare x y) eqn:Hxy; try discriminate;
    destruct (Ascii.compare y z) eqn:Hyz; try discriminate; intros H1 H2.
  - apply Ascii.compare_eq_iff in Hxy, Hyz; subst.
    unfold Ascii.compare. rewrite N.compare_refl. eapply IH; eassumption.
  - apply Ascii.compare_eq_iff in Hxy; subst. now rewrite Hyz.
  - apply Ascii.compare_eq_iff in Hyz; subst. now rewrite Hxy.
  - now rewrite (ascii_compare_trans Lt x y z Hxy Hyz).
Qed.

Lemma str_ltb_asym (a b : string) : str_ltb a b = true -> str_ltb b a = false.
Proof.
  unfold str_ltb, String.ltb. rewrite (String.compare_antisym b a).
  now destruct (String.compare a b).
Qed.

Lemma str_le_leb (a b : string) : le str_ltb a b <-> String.leb a b = true.
Proof.
  unfold le, str_ltb, String.ltb, String.leb.
  rewrite (String.compare_antisym b a).
  destruct (String.compare a b); simpl; split; congruence.
Qed.

Lemma str_leb_trans (a b c : string) :
  String.leb a b = true -> String.leb b c = true -> String.leb a c = true.
Proof.
  unfold String.leb.
  destruct (String.compare a b) eqn:Hab; try discriminate;
    destruct (String.compare b c) eqn:Hbc; try discriminate; intros _ _.
  - apply String.compare_eq_iff in Hab, Hbc; subst. now rewrite str_compare_refl.
  - apply String.compare_eq_iff in Hab; subst. now rewrite Hbc.
  - apply String.compare_eq_iff in Hbc; subst. now rewrite Hab.
  - now rewrite (str_compare_lt_trans _ _ _ Hab Hbc).
Qed.

(** [sorted] on [str]: a rearrangement in which every element is at most
    every later one. *)
Lemma sorted_str_StronglySorted (l : list string) :
  StronglySorted (fun a b => String.leb a b = true) (sorted str_ltb l).
Proof.
  apply Sorted_StronglySorted.
  - intros a b c. apply str_leb_trans.
  - eapply Sorted_ind with (P := fun l => Sorted _ l);
      [constructor | | apply sorted_Sorted, str_ltb_asym].
    intros x l' Hs IH Hhd. constructor; [exact IH |].
    destruct Hhd; constructor. now apply str_le_leb.
Qed.





(** ** [dict] *)

Section DictFacts.
Variable V : Type.

Lemma dict_find_set (d : dict V) (k k' : string) (v : V) :
  dict_find (dict_set d k v) k'
  = if String.eqb k k' then Some v else dict_find d k'.
Proof.
  induction d as [| [k0 v0] d IH]; simpl.
  - reflexivity.
  - destruct (String.eqb k0 k) eqn:Hk; simpl.
    + apply String.eqb_eq in Hk; subst k0.
      now destruct (String.eqb k k').
    + rewrite IH. destruct (String.eqb k0 k') eqn:Hk'; [| reflexivity].
      apply String.eqb_eq in Hk'; subst k0.
      destruct (String.eqb k k') eqn:E; [| reflexivity].
      apply String.eqb_eq in E; subst k'. now rewrite String.eqb_refl in Hk.
Qed.

Lemma dict_keys_set_new (d : dict V) (k : string) (v : V) :
  ~ In k (dict_keys d) -> dict_keys (dict_set d k v) = dict_keys d ++ [k].
Proof.
  induction d as [| [k0 v0] d IH]; simpl; intros Hnin.
  - reflexivity.
  - destruct (String.eqb k0 k) eqn:Hk.
    + apply String.eqb_eq in Hk. tauto.
    + simpl. f_equal. apply IH. tauto.
Qed.

Lemma in_dict_keys_set (d : dict V) (k k' : string) (v : V) :
  In k' (dict_keys (dict_set d k v)) <-> k' = k \/ In k' (dict_keys d).
Proof.
  induction d as [| [k0 v0] d IH]; simpl.
  - intuition congruence.
  - destruct (String.eqb k0 k) eqn:Hk; simpl.
    + apply String.eqb_eq in Hk; subst k0. intuition congruence.
    + rewrite IH. tauto.
Qed.

Lemma dict_find_of_key (d : dict V) (k : string) :
  In k (dict_keys d) -> exists v, dict_find d k = Some v.
Proof.
  induction d as [| [k0 v0] d IH]; simpl; intros Hin; [tauto |].
  destruct (String.eqb k0 k) eqn:Hk; [eauto |].
  destruct Hin as [-> | Hin]; [| auto].
  now rewrite String.eqb_refl in Hk.
Qed.
End DictFacts.

Lemma flat_map_ext_in {A B : Type} (f g : A -> list B) (l : list A) :
  (forall x, In x l -> f x = g x) -> flat_map f l = flat_map g l.
Proof.
  induction l as [| x l IH]; simpl; intros H; [reflexivity |].
  rewrite H by (left; reflexivity). f_equal. apply IH.
  intros; apply H; right; assumption.
Qed.

Lemma flat_map_map_each {A B C : Type} (f : B -> C) (g : A -> list B) (l : list A) :
  flat_map (fun x => map f (g x)) l = map f (flat_map g l).
Proof.
  induction l as [| x l IH]; simpl; [reflexivity |]. now rewrite map_app, IH.
Qed.

(** * The constructor: classes and samples *)

Section Construction.
Context {FS : FileSystem}.

Lemma fill_cons (x : string) (l : list string) (d : dict Z) (start : Z) :
  fill d start (x :: l) = fill (dict_set d x start) (start + 1) l.
Proof. reflexivity. Qed.

Lemma fill_find (l : list string) (d : dict Z) (start : Z) (c : string) (i : Z) :
  dict_find (fill d start l) c = Some i ->
  dict_find d c = Some i
  \/ (start <= i /\ nth_error l (Z.to_nat (i - start)) = Some c).
Proof.
  revert d start; induction l as [| x l IH]; intros d start; [simpl; tauto |].
  rewrite fill_cons. intros H. apply IH in H. destruct H as [H | [Hle Hnth]].
  - rewrite dict_find_set in H. destruct (String.eqb x c) eqn:Hx; [| tauto].
    apply String.eqb_eq in Hx; subst x. inversion H; subst i.
    right. rewrite Z.sub_diag. simpl. split; [lia | reflexivity].
  - right. split; [lia |].
    replace (Z.to_nat (i - start)) with (S (Z.to_nat (i - (start + 1)))) by lia.
    exact Hnth.
Qed.

Lemma fill_keys_in (l : list string) (d : dict Z) (start : Z) (c : string) :
  In c (dict_keys (fill d start l)) <-> In c (dict_keys d) \/ In c l.
Proof.
  revert d start; induction l as [| x l IH]; intros d start; [simpl; tauto |].
  rewrite fill_cons, IH, in_dict_keys_set. simpl. intuition congruence.
Qed.

Lemma fill_keys (l : list string) (d : dict Z) (start : Z) :
  NoDup (dict_keys d ++ l) -> dict_keys (fill d start l) = dict_keys d ++ l.
Proof.
  revert d start; induction l as [| x l IH]; intros d start Hnd.
  - simpl. now rewrite app_nil_r.
  - assert (Hx : ~ In x (dict_keys d)).
    { intros Hin. apply NoDup_remove_2 in Hnd. apply Hnd, in_or_app. now left. }
    rewrite fill_cons, IH; rewrite dict_keys_set_new by exact Hx.
    + now rewrite <- app_assoc.
    + rewrite <- app_assoc. exact Hnd.
Qed.

Lemma fill_find_other (l : list string) (d : dict Z) (start : Z) (c : string) :
  ~ In c l -> dict_find (fill d start l) c = dict_find d c.
Proof.
  revert d start; induction l as [| x l IH]; intros d start Hnin;
    [reflexivity |].
  rewrite fill_cons, IH by (simpl in Hnin; tauto).
  rewrite dict_find_set. destruct (String.eqb x c) eqn:Hx; [| reflexivity].
  apply String.eqb_eq in Hx. simpl in Hnin. tauto.
Qed.

Lemma fill_find_nth (l : list string) (d : dict Z) (start : Z) (n : nat) (c : string) :
  NoDup l -> nth_error l n = Some c ->
  dict_find (fill d start l) c = Some (start + Z.of_nat n).
Proof.
  revert d start n; induction l as [| x l IH]; intros d start n Hnd Hnth.
  - now destruct n.
  - inversion Hnd as [| ? ? Hx Hnd']; subst. rewrite fill_cons.
    destruct n as [| n]; simpl in Hnth.
    + inversion Hnth; subst x.
      rewrite fill_find_other by exact Hx.
      rewrite dict_find_set, String.eqb_refl. f_equal. lia.
    + rewrite (IH _ _ n) by assumption. f_equal. lia.
Qed.

(** A key of [class_to_idx] is a class, and its value a position of that
    class in the class list. *)
Lemma class_to_idx_find (classes : list string) (c : string) (i : Z) :
  dict_find (HMDB51.class_to_idx_of classes) c = Some i ->
  0 <= i /\ nth_error classes (Z.to_nat i) = Some c.
Proof.
  intros H. apply (fill_find classes [] 0) in H.
  destruct H as [H | [Hle Hnth]]; [discriminate |].
  now rewrite Z.sub_0_r in Hnth.
Qed.

Lemma class_to_idx_keys_in (classes : list string) (c : string) :
  In c (dict_keys (HMDB51.class_to_idx_of classes)) <-> In c classes.
Proof.
  destruct (fill_keys_in classes [] 0 c) as [H1 H2].
  split; intros H.
  - destruct (H1 H) as [[] | Hin]. exact Hin.
  - apply H2. now right.
Qed.

Lemma class_to_idx_keys (classes : list string) :
  NoDup classes -> dict_keys (HMDB51.class_to_idx_of classes) = classes.
Proof. intros H. apply (fill_keys classes [] 0). exact H. Qed.

Lemma class_to_idx_nth (classes : list string) (n : nat) (c : string) :
  NoDup classes -> nth_error classes n = Some c ->
  dict_find (HMDB51.class_to_idx_of classes) c = Some (Z.of_nat n).
Proof. intros Hnd Hnth. apply (fill_find_nth classes [] 0 n c Hnd Hnth). Qed.

(** The loops of lines 43-48 append, for one directory of the walk, its
    regular files by file name. *)
Lemma collect_dir_app (class_index : Z) (samples : list (string * Z))
  (entry : walk_entry) :
  HMDB51.collect_dir class_index samples entry
  = samples ++ map (fun path => (path, class_index)) (Spec.files_of_entry entry).
Proof.
  destruct entry as [[root_curr dirs] fnames].
  unfold HMDB51.collect_dir, Spec.files_of_entry.
  rewrite fold_left_app_each
    with (g := fun fname =>
                 if os_path_isfile (os_path_join root_curr fname)
                 then [(os_path_join root_curr fname, class_index)] else []).
  - f_equal. induction (sorted str_ltb fnames) as [| f l IH]; simpl; [reflexivity |].
    destruct (os_path_isfile (os_path_join root_curr f)); simpl; now rewrite IH.
  - intros s x _. destruct (os_path_isfile (os_path_join root_curr x));
      [reflexivity | now rewrite app_nil_r].
Qed.

Lemma collect_class_app (root : string) (class_to_idx : dict Z)
  (target_class : string) (class_index : Z) (samples : list (string * Z)) :
  dict_find class_to_idx target_class = Some class_index ->
  HMDB51.collect_class root class_to_idx target_class samples
  = Ok (samples ++ map (fun path => (path, class_index))
                     (Spec.files_of_class root target_class)).
Proof.
  intros Hfind. unfold HMDB51.collect_class, dict_get. rewrite Hfind. simpl.
  f_equal. unfold Spec.files_of_class.
  rewrite <- flat_map_map_each. apply fold_left_app_each.
  intros s x _. apply collect_dir_app.
Qed.

(** The loops of lines 40-48 never raise. *)
Lemma build_samples_ok (root : string) (classes : list string) :
  HMDB51.build_samples root classes
  = Ok (samples_of root classes).
Proof.
  unfold HMDB51.build_samples, samples_of.
  rewrite for_each_app with (g := class_samples root (HMDB51.class_to_idx_of classes)).
  - reflexivity.
  - intros c s Hin. apply in_sorted in Hin.
    destruct (dict_find_of_key _ _ c Hin) as [i Hi].
    unfold class_samples. rewrite Hi. now apply collect_class_app.
Qed.
End Construction.

Section Samples.
Context {FS : FileSystem}.

Lemma in_files_of_entry (entry : walk_entry) (path : string) :
  In path (Spec.files_of_entry entry) <->
  exists fname,
    In fname (snd entry)
    /\ path = os_path_join (fst (fst entry)) fname
    /\ os_path_isfile path = true.
Proof.
  destruct entry as [[dirpath dirs] fnames]. unfold Spec.files_of_entry. simpl.
  rewrite filter_In, in_map_iff. split.
  - intros [[fname [Hp Hin]] Hfile]. exists fname.
    apply in_sorted in Hin. auto.
  - intros [fname [Hin [Hp Hfile]]]. split; [| exact Hfile].
    exists fname. split; [auto |]. now apply in_sorted.
Qed.

(** A file of a class is a regular file named in some directory of the walk
    of the directory of the class. *)
Lemma in_files_of_class (root class_ path : string) :
  In path (Spec.files_of_class root class_) <->
  exists dirpath dirs fnames fname,
    In (dirpath, dirs, fnames) (os_walk (os_path_join root class_))
    /\ In fname fnames
    /\ path = os_path_join dirpath fname
    /\ os_path_isfile path = true.
Proof.
  unfold Spec.files_of_class. rewrite in_flat_map. split.
  - intros [[[dirpath dirs] fnames] [Hin Hp]]. apply in_sorted in Hin.
    apply in_files_of_entry in Hp. destruct Hp as [fname Hf].
    exists dirpath, dirs, fnames, fname. tauto.
  - intros [dirpath [dirs [fnames [fname [Hin Hf]]]]].
    exists (dirpath, dirs, fnames). split; [now apply in_sorted |].
    apply in_files_of_entry. exists fname. exact Hf.
Qed.

Lemma in_samples_of (root : string) (classes : list string) (path : string) (i : Z) :
  In (path, i) (samples_of root classes) ->
  exists class_,
    0 <= i /\ nth_error classes (Z.to_nat i) = Some class_
    /\ In path (Spec.files_of_class root class_).
Proof.
  unfold samples_of. rewrite in_flat_map. intros [c [_ Hin]].
  unfold class_samples in Hin.
  destruct (dict_find (HMDB51.class_to_idx_of classes) c) as [j |] eqn:Hj;
    [| contradiction].
  apply in_map_iff in Hin. destruct Hin as [p [Heq Hp]].
  inversion Heq; subst. apply class_to_idx_find in Hj.
  exists c. tauto.
Qed.

Lemma samples_of_in (root : string) (classes : list string) (class_ path : string) :
  In class_ classes -> In path (Spec.files_of_class root class_) ->
  exists i,
    In (path, i) (samples_of root classes)
    /\ nth_error classes (Z.to_nat i) = Some class_.
Proof.
  intros Hc Hp. apply class_to_idx_keys_in in Hc.
  destruct (dict_find_of_key _ _ _ Hc) as [i Hi]. exists i. split.
  - unfold samples_of. apply in_flat_map. exists class_.
    split; [now apply in_sorted |].
    unfold class_samples. rewrite Hi.
    apply (in_map (fun p => (p, i))). exact Hp.
  - now apply class_to_idx_find.
Qed.

Lemma map_snd_enumerate_from {A : Type} (l : list A) (start : Z) :
  map snd (enumerate_from start l) = l.
Proof.
  revert start; induction l as [| x l IH]; intros start; simpl;
    [reflexivity | now rewrite IH].
Qed.

Lemma flat_map_map_arg {A B C : Type} (f : A -> B) (g : B -> list C) (l : list A) :
  flat_map g (map f l) = flat_map (fun x => g (f x)) l.
Proof.
  induction l as [| x l IH]; simpl; [reflexivity | now rewrite IH].
Qed.

(** With a class list in order and free of repetitions, the loops build
    the sample list of the specification. *)
Lemma samples_of_spec (root : string) (classes : list string) :
  NoDup classes -> Sorted (le str_ltb) classes ->
  samples_of root classes = Spec.samples_spec root classes.
Proof.
  intros Hnd Hs. unfold samples_of, Spec.samples_spec.
  rewrite class_to_idx_keys by exact Hnd.
  rewrite sorted_of_Sorted by exact Hs.
  rewrite <- (map_snd_enumerate_from classes 0) at 2.
  rewrite flat_map_map_arg. apply flat_map_ext_in.
  intros [i c] Hin. simpl. apply in_enumerate_from in Hin.
  destruct Hin as [Hle Hnth]. rewrite Z.sub_0_r in Hnth.
  unfold class_samples.
  rewrite (class_to_idx_nth classes (Z.to_nat i) c Hnd Hnth).
  now rewrite Z2Nat.id by exact Hle.
Qed.
End Samples.

(** * The constructor returns *)

Section Constructor.
Context {FS : FileSystem} {API : VideoClipsAPI}.

Lemma get_indices_snoc (video_list : list string) (video_path : string) :
  HMDB51.get_indices (video_list ++ [video_path])
  = HMDB51.get_indices video_list ++ [Z.of_nat (length video_list)].
Proof.
  unfold HMDB51.get_indices, enumerate.
  rewrite enumerate_from_app, fold_left_app. reflexivity.
Qed.

(** The loop of lines 76-77 appends the positions one after the other. *)
Lemma get_indices_range (video_list : list string) :
  HMDB51.get_indices video_list = range (length video_list).
Proof.
  induction video_list as [| video_path video_list IH] using rev_ind.
  - reflexivity.
  - rewrite get_indices_snoc, IH, length_app, Nat.add_1_r, range_succ.
    reflexivity.
Qed.

(** The constructor returns whenever the split directory can be listed. *)
Lemma init_with_ok (extensions : list string) (root : string)
  (args : clip_args Metadata) (train : bool)
  (transform : option (Video -> Video)) (names : list string) :
  list_dir (HMDB51.split_root root train) = Ok names ->
  HMDB51.init_with extensions root args train transform
  = Ok (constructed root args train transform names).
Proof.
  intros Hdir. unfold HMDB51.init_with. rewrite Hdir. simpl.
  rewrite build_samples_ok. simpl.
  rewrite get_indices_range, length_map. reflexivity.
Qed.

Lemma init_with_inv (extensions : list string) (root : string)
  (args : clip_args Metadata) (train : bool)
  (transform : option (Video -> Video)) (ds : HMDB51.t) :
  HMDB51.init_with extensions root args train transform = Ok ds ->
  exists names,
    list_dir (HMDB51.split_root root train) = Ok names
    /\ ds = constructed root args train transform names.
Proof.
  intros H.
  destruct (list_dir (HMDB51.split_root root train)) as [names | e] eqn:Hdir.
  - exists names. split; [reflexivity |].
    rewrite (init_with_ok extensions root args train transform names Hdir) in H.
    congruence.
  - unfold HMDB51.init_with in H. rewrite Hdir in H. discriminate H.
Qed.
End Constructor.

(** * The dataset: construction *)

Section ConstructionClaims.
Context {FS : FileSystem} {API : VideoClipsAPI}.

(** C4.  With [train] set the split directory is [root + "/train"],
    otherwise [root + "/test"].  When that directory lists as [names] (no
    name twice, as in any directory), the constructor returns an object
    whose class list is [names] rearranged into the order of [str], which
    compares code points and so tells upper from lower case; the index the
    dictionary of line 38 gives a class is its position in that list,
    counted from zero.  For the classes brush_hair and cartwheel these
    indices are 0 and 1. *)
Theorem C4_split_and_class_indices (root : string) (args : clip_args Metadata)
  (train : bool) (transform : option (Video -> Video)) (names : list string) :
  list_dir (HMDB51.split_root root train) = Ok names ->
  NoDup names ->
  HMDB51.split_root root true = (root ++ "/train")%string
  /\ HMDB51.split_root root false = (root ++ "/test")%string
  /\ (exists ds,
        HMDB51.__init__ root args train transform = Ok ds
        /\ HMDB51.train ds = train
        /\ Permutation (HMDB51.classes ds) names
        /\ StronglySorted (fun a b => String.leb a b = true) (HMDB51.classes ds)
        /\ (forall (n : nat) (c : string),
              nth_error (HMDB51.classes ds) n = Some c
              <-> dict_find (HMDB51.class_to_idx_of (HMDB51.classes ds)) c
                  = Some (Z.of_nat n)))
  /\ HMDB51.class_to_idx_of (sorted str_ltb ["cartwheel"; "brush_hair"])
     = [("brush_hair", 0); ("cartwheel", 1)]
  /\ sorted str_ltb ["apple"; "Zebra"; "zebra"; "Apple"]
     = ["Apple"; "Zebra"; "apple"; "zebra"].
Proof.
  intros Hdir Hnd. repeat split; try reflexivity.
  exists (constructed root args train transform names).
  split; [now apply init_with_ok |]. simpl.
  split; [reflexivity |].
  split; [apply sorted_perm |].
  split; [apply sorted_str_StronglySorted |].
  intros n c. split.
  - apply class_to_idx_nth. now apply sorted_NoDup.
  - intros H. apply class_to_idx_find in H. now rewrite Nat2Z.id in H.
Qed.


(** C9.  The value bound to [extensions] has no part in the construction:
    whatever it is, the constructor does the same.  When the split directory
    lists as [names], every regular file that the walk of a class directory
    names becomes a sample with the index of that class, whatever its
    name, so a file that does not end in .avi is collected like one that
    does. *)
Theorem C9_no_extension_filter (root : string) (args : clip_args Metadata)
  (train : bool) (transform : option (Video -> Video)) (names : list string) :
  list_dir (HMDB51.split_root root train) = Ok names ->
  (forall extensions : list string,
     HMDB51.init_with extensions root args train transform
     = HMDB51.__init__ root args train transform)
  /\ exists ds,
       HMDB51.__init__ root args train transform = Ok ds
       /\ forall (class_ dirpath : string) (dirs fnames : list string)
                 (fname : string),
            In class_ names ->
            In (dirpath, dirs, fnames)
              (os_walk (os_path_join (HMDB51.split_root root train) class_)) ->
            In fname fnames ->
            os_path_isfile (os_path_join dirpath fname) = true ->
            exists class_index,
              In (os_path_join dirpath fname, class_index) (HMDB51.samples ds)
              /\ nth_error (HMDB51.classes ds) (Z.to_nat class_index)
                 = Some class_.
Proof.
  intros Hdir. split.
  - intros extensions. unfold HMDB51.__init__.
    now rewrite !(init_with_ok _ root args train transform names Hdir).
  - exists (constructed root args train transform names).
    split; [now apply init_with_ok |]. simpl.
    intros class_ dirpath dirs fnames fname Hc Hwalk Hf Hfile.
    apply samples_of_in.
    + now apply in_sorted.
    + apply in_files_of_class. exists dirpath, dirs, fnames, fname. auto.
Qed.
End ConstructionClaims.

(** * The dataset: methods *)

Lemma map_nth_range {A : Type} (l : list A) (d : A) :
  map (fun i => nth (Z.to_nat i) l d) (range (length l)) = l.
Proof.
  induction l as [| x l IH] using rev_ind; [reflexivity |].
  rewrite length_app, Nat.add_1_r, range_succ, map_app. simpl.
  rewrite Nat2Z.id, nth_middle. f_equal.
  rewrite <- IH at 2. apply map_ext_in. intros i Hi.
  apply in_range in Hi. apply app_nth1. lia.
Qed.

Section Methods.
Context {API : VideoClipsAPI}.

Lemma len_run (self : HMDB51.t) :
  HMDB51.__len__ self = (vc_num_clips (HMDB51.video_clips self), self).
Proof. reflexivity. Qed.

Lemma metadata_run (self : HMDB51.t) :
  HMDB51.metadata self = (Ok (HMDB51.video_clips_metadata self), self).
Proof. reflexivity. Qed.

(** [__getitem__] hands back the object it was given, whether it returns or
    raises. *)
Lemma getitem_self (idx : Z) (self : HMDB51.t) :
  snd (HMDB51.__getitem__ idx self) = self.
Proof.
  unfold HMDB51.__getitem__, HMDB51.mbind, HMDB51.getattr, HMDB51.call, HMDB51.ret.
  destruct (vc_get_clip (HMDB51.video_clips self) idx)
    as [[[[video audio] info] video_idx] | e]; [| reflexivity].
  destruct (py_getitem (HMDB51.indices self) video_idx)
    as [sample_index | e]; [| reflexivity].
  destruct (py_getitem (HMDB51.samples self) sample_index)
    as [[path class_index] | e]; reflexivity.
Qed.

Lemma getitem_run (idx : Z) (self : HMDB51.t) (video : Video) (audio : Audio)
  (info : Info) (video_idx sample_index : Z) (path : string) (class_index : Z) :
  vc_get_clip (HMDB51.video_clips self) idx = Ok (video, audio, info, video_idx) ->
  py_getitem (HMDB51.indices self) video_idx = Ok sample_index ->
  py_getitem (HMDB51.samples self) sample_index = Ok (path, class_index) ->
  HMDB51.__getitem__ idx self
  = (Ok (match HMDB51.transform self with
         | Some f => f video
         | None => video
         end, class_index), self).
Proof.
  intros Hclip Hidx Hsample.
  unfold HMDB51.__getitem__, HMDB51.mbind, HMDB51.getattr, HMDB51.call, HMDB51.ret.
  rewrite Hclip, Hidx, Hsample. reflexivity.
Qed.

Lemma run_op_self (o : Client.op) (self : HMDB51.t) : Client.run_op o self = self.
Proof. destruct o; simpl; [reflexivity | apply getitem_self | reflexivity]. Qed.

Lemma run_ops_self (ops : list Client.op) (self : HMDB51.t) :
  Client.run_ops ops self = self.
Proof.
  unfold Client.run_ops. induction ops as [| o ops IH]; simpl; [reflexivity |].
  now rewrite run_op_self.
Qed.
End Methods.

Section VideoPaths.
Context {FS : FileSystem} {API : VideoClipsAPI} {contract : VideoClipsContract API}.

(** The collection the object keeps is over the paths of the samples. *)
Lemma constructed_video_paths (root : string) (args : clip_args Metadata)
  (train : bool) (transform : option (Video -> Video)) (names : list string) :
  vc_video_paths (HMDB51.video_clips (constructed root args train transform names))
  = map fst (HMDB51.samples (constructed root args train transform names)).
Proof.
  simpl. set (samples := samples_of _ _).
  rewrite subset_video_paths, new_video_paths.
  - rewrite <- (length_map fst samples). apply map_nth_range.
  - rewrite new_video_paths, length_map. apply Forall_forall.
    intros i Hi. now apply in_range.
Qed.

Lemma constructed_num_clips (root : string) (args : clip_args Metadata)
  (train : bool) (transform : option (Video -> Video)) (names : list string) :
  vc_num_clips (HMDB51.video_clips (constructed root args train transform names))
  = vc_num_clips
      (VideoClips
         (map fst (HMDB51.samples (constructed root args train transform names)))
         args).
Proof.
  simpl. set (samples := samples_of _ _).
  rewrite <- (subset_all_num_clips (VideoClips (map fst samples) args)).
  now rewrite new_video_paths, length_map.
Qed.
End VideoPaths.

(** Two directory trees that answer every call alike give the same
    samples. *)
Lemma samples_of_ext (FS1 FS2 : FileSystem) :
  (forall path, @os_walk FS1 path = @os_walk FS2 path) ->
  (forall path, @os_path_isfile FS1 path = @os_path_isfile FS2 path) ->
  forall (root : string) (classes : list string),
    @samples_of FS1 root classes = @samples_of FS2 root classes.
Proof.
  intros Hwalk Hfile root classes. unfold samples_of.
  apply flat_map_ext_in. intros c _. unfold class_samples.
  destruct (dict_find (HMDB51.class_to_idx_of classes) c); [| reflexivity].
  f_equal. unfold Spec.files_of_class. rewrite Hwalk.
  apply flat_map_ext_in. intros [[dirpath dirs] fnames] _.
  unfold Spec.files_of_entry. apply filter_ext. exact Hfile.
Qed.

Section MethodClaims.
Context {FS : FileSystem} {API : VideoClipsAPI}.

(** C1.  On a constructed dataset, and with a clip collection that keeps to
    its contract, [item(i)] for [0 <= i < length()] returns the clip
    (transformed, when a transform was given) with a label, and nothing of
    the audio or the clip information.  The clip comes from the source video
    at position [video_idx] of the collection; the sample at that position
    is that file with the label; the label is a position in the class list,
    which is the listing of the split directory in sorted order, and the
    file was found under the directory of the class at that position. *)
Theorem C1_item_label {contract : VideoClipsContract API} (root : string)
  (args : clip_args Metadata) (train : bool)
  (transform : option (Video -> Video)) (ds : HMDB51.t) (i n : Z) :
  HMDB51.__init__ root args train transform = Ok ds ->
  fst (HMDB51.__len__ ds) = Ok n ->
  0 <= i < n ->
  exists video audio info video_idx path label class_ names,
    vc_get_clip (HMDB51.video_clips ds) i = Ok (video, audio, info, video_idx)
    /\ HMDB51.__getitem__ i ds
       = (Ok (match transform with
              | Some f => f video
              | None => video
              end, label), ds)
    /\ 0 <= video_idx
    /\ nth_error (vc_video_paths (HMDB51.video_clips ds)) (Z.to_nat video_idx)
       = Some path
    /\ nth_error (HMDB51.samples ds) (Z.to_nat video_idx) = Some (path, label)
    /\ 0 <= label
    /\ nth_error (HMDB51.classes ds) (Z.to_nat label) = Some class_
    /\ In path (Spec.files_of_class (HMDB51.split_root root train) class_)
    /\ list_dir (HMDB51.split_root root train) = Ok names
    /\ HMDB51.classes ds = sorted str_ltb names.
Proof.
  intros Hinit Hlen Hi.
  apply (init_with_inv ["avi"]) in Hinit. destruct Hinit as [names [Hdir Hds]].
  assert (Hpaths : vc_video_paths (HMDB51.video_clips ds)
                   = map fst (HMDB51.samples ds))
    by (rewrite Hds; apply constructed_video_paths).
  assert (Hindices : HMDB51.indices ds = range (length (HMDB51.samples ds)))
    by (rewrite Hds; reflexivity).
  assert (Hsamples : HMDB51.samples ds
                     = samples_of (HMDB51.split_root root train)
                         (HMDB51.classes ds))
    by (rewrite Hds; reflexivity).
  assert (Hclasses : HMDB51.classes ds = sorted str_ltb names)
    by (rewrite Hds; reflexivity).
  assert (Htransform : HMDB51.transform ds = transform)
    by (rewrite Hds; reflexivity).
  clear Hds.
  rewrite len_run in Hlen. simpl in Hlen.
  destruct (@get_clip_in_range API contract _ i n Hlen Hi)
    as [video [audio [info [video_idx [Hclip Hrange]]]]].
  rewrite Hpaths, length_map in Hrange.
  assert (Hlt : (Z.to_nat video_idx < length (HMDB51.samples ds))%nat) by lia.
  destruct (nth_error (HMDB51.samples ds) (Z.to_nat video_idx))
    as [[path label] |] eqn:Hsample;
    [| apply nth_error_None in Hsample; lia].
  assert (Hin : In (path, label) (HMDB51.samples ds))
    by (eapply nth_error_In; exact Hsample).
  rewrite Hsamples in Hin.
  destruct (in_samples_of _ _ _ _ Hin) as [class_ [Hlabel [Hclass Hfile]]].
  exists video, audio, info, video_idx, path, label, class_, names.
  split; [exact Hclip |].
  split.
  { rewrite <- Htransform.
    apply (getitem_run i ds video audio info video_idx video_idx path label).
    - exact Hclip.
    - rewrite Hindices. apply py_getitem_nth; [lia |].
      replace video_idx with (Z.of_nat (Z.to_nat video_idx)) at 2 by lia.
      now apply nth_error_range.
    - apply py_getitem_nth; [lia | exact Hsample]. }
  split; [lia |].
  split; [rewrite Hpaths, nth_error_map, Hsample; reflexivity |].
  split; [exact Hsample |].
  split; [exact Hlabel |].
  split; [exact Hclass |].
  split; [exact Hfile |].
  split; [exact Hdir | exact Hclasses].
Qed.

(** C3.  [get_indices] returns the positions [0, 1, ..., n-1] of the list
    it is given.  On a constructed dataset the index mapping is that list
    for the video paths, the collection kept is the subset of the
    collection of all the video paths under that mapping, and, with a
    clip collection that keeps to its contract, [length()] does what
    [num_clips()] of the collection of all the video paths does: it returns
    the number of clips that collection reports, and where that collection
    raises for want of a count (with no video file in the split) it raises
    the same error.  A second construction from the same arguments, over a
    directory tree that answers every call alike and with the same video
    files, has the same [length()], count or error. *)
Theorem C3_identity_indices_and_length {contract : VideoClipsContract API}
  (root : string) (args : clip_args Metadata) (train : bool)
  (transform : option (Video -> Video)) (ds : HMDB51.t) :
  HMDB51.__init__ root args train transform = Ok ds ->
  (forall video_list : list string,
     HMDB51.get_indices video_list = range (length video_list))
  /\ HMDB51.indices ds = HMDB51.get_indices (map fst (HMDB51.samples ds))
  /\ HMDB51.indices ds = range (length (HMDB51.samples ds))
  /\ HMDB51.video_clips ds
     = vc_subset (VideoClips (map fst (HMDB51.samples ds)) args)
         (HMDB51.indices ds)
  /\ HMDB51.__len__ ds
     = (vc_num_clips (VideoClips (map fst (HMDB51.samples ds)) args), ds)
  /\ (forall n : Z,
        vc_num_clips (VideoClips (map fst (HMDB51.samples ds)) args) = Ok n ->
        fst (HMDB51.__len__ ds) = Ok n)
  /\ (forall e : exn,
        vc_num_clips (VideoClips (map fst (HMDB51.samples ds)) args) = Raise e ->
        fst (HMDB51.__len__ ds) = Raise e)
  /\ (forall (FS' : FileSystem) (ds' : HMDB51.t),
        (forall path, @list_dir FS' path = @list_dir FS path) ->
        (forall path, @os_walk FS' path = @os_walk FS path) ->
        (forall path, @os_path_isfile FS' path = @os_path_isfile FS path) ->
        @HMDB51.__init__ FS' API root args train transform = Ok ds' ->
        fst (HMDB51.__len__ ds') = fst (HMDB51.__len__ ds)).
Proof.
  intros Hinit. apply (init_with_inv ["avi"]) in Hinit.
  destruct Hinit as [names [Hdir ->]].
  split; [apply get_indices_range |].
  split; [simpl; now rewrite get_indices_range, length_map |].
  split; [reflexivity |].
  split; [reflexivity |].
  assert (Hlen : HMDB51.__len__ (constructed root args train transform names)
                 = (vc_num_clips
                      (VideoClips
                         (map fst
                            (HMDB51.samples
                               (constructed root args train transform names)))
                         args),
                    constructed root args train transform names))
    by (rewrite len_run; now rewrite constructed_num_clips).
  split; [exact Hlen |].
  split; [intros n Hn; now rewrite Hlen, Hn |].
  split; [intros e He; now rewrite Hlen, He |].
  clear Hlen. intros FS' ds' Hlist Hwalk Hfile Hinit'.
  apply (init_with_inv ["avi"]) in Hinit'. destruct Hinit' as [names' [Hdir' ->]].
  rewrite Hlist, Hdir in Hdir'. inversion Hdir'; subst names'.
  unfold constructed. rewrite !len_run. simpl.
  now rewrite (samples_of_ext FS' FS Hwalk Hfile).
Qed.

(** C7.  [item] is deterministic: on any dataset object, a second call of
    [item(i)] right after the first, or after any sequence of calls of
    [length()], [item] and [metadata], gives what the first call gave,
    a value or an error; and two objects constructed from the same
    arguments give the same for every index. *)
Theorem C7_item_deterministic (ds : HMDB51.t) (i : Z) :
  fst (HMDB51.__getitem__ i (snd (HMDB51.__getitem__ i ds)))
  = fst (HMDB51.__getitem__ i ds)
  /\ (forall ops : list Client.op,
        fst (HMDB51.__getitem__ i (Client.run_ops ops ds))
        = fst (HMDB51.__getitem__ i ds))
  /\ (forall (root : string) (args : clip_args Metadata) (train : bool)
             (transform : option (Video -> Video)) (ds' : HMDB51.t),
        HMDB51.__init__ root args train transform = Ok ds ->
        HMDB51.__init__ root args train transform = Ok ds' ->
        fst (HMDB51.__getitem__ i ds') = fst (HMDB51.__getitem__ i ds)).
Proof.
  split; [now rewrite getitem_self |].
  split; [intros ops; now rewrite run_ops_self |].
  intros root args train transform ds' H H'. congruence.
Qed.

(** C8.  No method changes the object: [length()], [item(index)] for any
    index, in range or not, and reading [metadata] hand back the object they
    were given, and so does any sequence of them; the sample list, the
    class list, the index mapping, the clip collection, the stored metadata
    and the transform are afterwards what they were. *)
Theorem C8_methods_do_not_mutate (ds : HMDB51.t) :
  snd (HMDB51.__len__ ds) = ds
  /\ (forall idx : Z, snd (HMDB51.__getitem__ idx ds) = ds)
  /\ snd (HMDB51.metadata ds) = ds
  /\ (forall ops : list Client.op,
        let ds' := Client.run_ops ops ds in
        HMDB51.samples ds' = HMDB51.samples ds
        /\ HMDB51.classes ds' = HMDB51.classes ds
        /\ HMDB51.indices ds' = HMDB51.indices ds
        /\ HMDB51.video_clips ds' = HMDB51.video_clips ds
        /\ HMDB51.video_clips_metadata ds' = HMDB51.video_clips_metadata ds
        /\ HMDB51.transform ds' = HMDB51.transform ds
        /\ HMDB51.train ds' = HMDB51.train ds).
Proof.
  split; [reflexivity |].
  split; [intros idx; apply getitem_self |].
  split; [reflexivity |].
  intros ops ds'. unfold ds'. rewrite run_ops_self. repeat split.
Qed.
End MethodClaims.

(** * The loader *)

Lemma slice_concat {A : Type} (m : nat) (l : list (list A)) (k : nat) (x : list A) :
  Forall (fun y => length y = m) l ->
  nth_error l k = Some x ->
  firstn m (skipn (k * m) (concat l)) = x.
Proof.
  intros Hall. revert k. induction Hall as [| y l Hy Hall IH]; intros k Hnth.
  - now destruct k.
  - destruct k as [| k]; simpl in *.
    + inversion Hnth; subst y.
      rewrite <- (Nat.add_0_r m) at 1. rewrite <- Hy at 1.
      rewrite firstn_app_2. simpl. now rewrite app_nil_r.
    + rewrite skipn_app, Hy.
      rewrite skipn_all2 by lia. simpl.
      replace (m + k * m - m)%nat with (k * m)%nat by lia.
      now apply IH.
Qed.

Section Collation.
Variables elt Label D : Type.
Context {DS : Dataset D (Tensor elt * Label)}.

(** The loop of lines 113-115 appends the clips to one list and the labels
    to the other, both in the order of the batch. *)
Lemma collect_loop (batch : list (Tensor elt * Label))
  (video_list : list (Tensor elt)) (label_list : list Label) :
  fold_left
    (fun '(video_list, label_list) '(video, index) =>
       (video_list ++ [video], label_list ++ [index]))
    batch (video_list, label_list)
  = (video_list ++ map fst batch, label_list ++ map snd batch).
Proof.
  revert video_list label_list; induction batch as [| [video index] batch IH];
    intros video_list label_list; simpl.
  - now rewrite !app_nil_r.
  - rewrite IH, <- !app_assoc. reflexivity.
Qed.

Lemma collect_fn_stack (self : BuildDataLoader.t D)
  (batch : list (Tensor elt * Label)) :
  BuildDataLoader.collect_fn self batch
  = bind (torch_stack (map fst batch))
      (fun videos =>
         Ok [("videos", BuildDataLoader.VTensor Label videos);
             ("labels", BuildDataLoader.VList elt (map snd batch))]).
Proof.
  unfold BuildDataLoader.collect_fn. rewrite collect_loop. reflexivity.
Qed.

Lemma torch_stack_same_shape (first : Tensor elt) (rest : list (Tensor elt)) :
  (forall x, In x rest -> shape x = shape first) ->
  torch_stack (first :: rest)
  = Ok {| shape := length (first :: rest) :: shape first;
          data := concat (map (@data elt) (first :: rest)) |}.
Proof.
  intros Hshape. unfold torch_stack.
  replace (forallb _ rest) with true; [reflexivity |].
  symmetry. apply forallb_forall. intros x Hx.
  destruct (list_eq_dec Nat.eq_dec (shape x) (shape first)) as [| Hne];
    [reflexivity |].
  exfalso. apply Hne. now apply Hshape.
Qed.
End Collation.

(** ** Cutting an index sequence into batches *)

Section Batches.
Variable batch_size : Z.
Hypothesis batch_size_pos : 0 < batch_size.

Lemma batch_loop_concat (sampler batch : list Z) :
  concat (BuildDataLoader.batch_loop batch_size false sampler batch)
  = batch ++ sampler.
Proof.
  revert batch; induction sampler as [| idx sampler IH]; intros batch; simpl.
  - destruct (0 <? Z.of_nat (length batch)) eqn:Hlen; simpl.
    + reflexivity.
    + apply Z.ltb_ge in Hlen. destruct batch; [reflexivity | simpl in Hlen; lia].
  - destruct (Z.of_nat (length (batch ++ [idx])) =? batch_size); simpl;
      rewrite IH, <- app_assoc; reflexivity.
Qed.

Lemma batch_loop_length (sampler batch : list Z) :
  Z.of_nat (length batch) < batch_size ->
  Z.of_nat (length (BuildDataLoader.batch_loop batch_size false sampler batch))
  = (Z.of_nat (length batch) + Z.of_nat (length sampler) + batch_size - 1)
    / batch_size.
Proof.
  revert batch; induction sampler as [| idx sampler IH]; intros batch Hlt.
  - simpl. destruct (0 <? Z.of_nat (length batch)) eqn:Hlen; simpl.
    + apply Z.ltb_lt in Hlen.
      apply Z.div_unique with (r := Z.of_nat (length batch) - 1); lia.
    + apply Z.ltb_ge in Hlen. symmetry. apply Z.div_small. lia.
  - cbn [BuildDataLoader.batch_loop]. rewrite length_app. cbn [length].
    destruct (Z.of_nat (length batch + 1) =? batch_size) eqn:Hfull.
    + apply Z.eqb_eq in Hfull. cbn [length]. rewrite Nat2Z.inj_succ, IH by (simpl; lia).
      simpl length. rewrite Nat2Z.inj_succ.
      replace (Z.of_nat (length batch) + Z.succ (Z.of_nat (length sampler))
               + batch_size - 1)
        with (Z.of_nat 0 + Z.of_nat (length sampler) + batch_size - 1
              + 1 * batch_size) by lia.
      rewrite Z.div_add by lia. lia.
    + apply Z.eqb_neq in Hfull. rewrite IH by (rewrite length_app; simpl; lia).
      rewrite length_app. simpl length. f_equal. lia.
Qed.

Lemma batch_loop_sizes (sampler batch : list Z) :
  Z.of_nat (length batch) < batch_size ->
  Forall (fun b => 0 < Z.of_nat (length b) <= batch_size)
    (BuildDataLoader.batch_loop batch_size false sampler batch).
Proof.
  revert batch; induction sampler as [| idx sampler IH]; intros batch Hlt.
  - simpl. destruct (0 <? Z.of_nat (length batch)) eqn:Hlen; simpl.
    + apply Z.ltb_lt in Hlen. constructor; [lia | constructor].
    + constructor.
  - cbn [BuildDataLoader.batch_loop].
    destruct (Z.of_nat (length (batch ++ [idx])) =? batch_size) eqn:Hfull.
    + apply Z.eqb_eq in Hfull. constructor.
      * rewrite length_app in *. simpl in *. lia.
      * apply IH. simpl. lia.
    + apply Z.eqb_neq in Hfull. apply IH.
      rewrite length_app in *. simpl in *. lia.
Qed.

(** Every batch but the last is full. *)
Lemma batch_loop_full (sampler batch : list Z) (k : nat) (b : list Z) :
  (S k < length (BuildDataLoader.batch_loop batch_size false sampler batch))%nat ->
  nth_error (BuildDataLoader.batch_loop batch_size false sampler batch) k = Some b ->
  Z.of_nat (length b) = batch_size.
Proof.
  revert batch k; induction sampler as [| idx sampler IH]; intros batch k.
  - simpl. destruct (0 <? Z.of_nat (length batch)); simpl; lia.
  - cbn [BuildDataLoader.batch_loop].
    destruct (Z.of_nat (length (batch ++ [idx])) =? batch_size) eqn:Hfull.
    + apply Z.eqb_eq in Hfull. destruct k as [| k]; simpl.
      * intros _ H. inversion H; subst b. exact Hfull.
      * intros Hlt. apply IH. lia.
    + apply IH.
Qed.
End Batches.

(** ** What a call of [loader()] does *)

Section LoaderFacts.
Variables elt Label D : Type.
Context {DS : Dataset D (Tensor elt * Label)}.

Lemma loader_negative_workers (self : BuildDataLoader.t D) (next : nat) :
  BuildDataLoader.num_workers self < 0 ->
  @BuildDataLoader.loader elt Label D DS self next = (Raise ValueError, next).
Proof.
  intros Hw. unfold BuildDataLoader.loader, BuildDataLoader.DataLoader_init.
  apply Z.ltb_lt in Hw. now rewrite Hw.
Qed.

Lemma loader_length_error (self : BuildDataLoader.t D) (next : nat) (e : exn) :
  0 <= BuildDataLoader.num_workers self ->
  BuildDataLoader.shuffle self = true ->
  ds_len (BuildDataLoader.dataset self) = Raise e ->
  @BuildDataLoader.loader elt Label D DS self next = (Raise e, next).
Proof.
  intros Hw Hshuffle He.
  unfold BuildDataLoader.loader, BuildDataLoader.DataLoader_init.
  apply Z.ltb_ge in Hw. now rewrite Hw, Hshuffle, He.
Qed.

Lemma loader_empty_shuffle (self : BuildDataLoader.t D) (next : nat) (n : Z) :
  0 <= BuildDataLoader.num_workers self ->
  BuildDataLoader.shuffle self = true ->
  ds_len (BuildDataLoader.dataset self) = Ok n ->
  n <= 0 ->
  @BuildDataLoader.loader elt Label D DS self next = (Raise ValueError, next).
Proof.
  intros Hw Hshuffle Hn Hle.
  unfold BuildDataLoader.loader, BuildDataLoader.DataLoader_init.
  apply Z.ltb_ge in Hw. apply Z.leb_le in Hle.
  rewrite Hw, Hshuffle, Hn. simpl. now rewrite Hle.
Qed.

(** The sampler is made: [shuffle] is off, or the dataset has a length
    above zero. *)
Lemma sampler_made (self : BuildDataLoader.t D) :
  BuildDataLoader.shuffle self = false
  \/ (exists n, ds_len (BuildDataLoader.dataset self) = Ok n /\ 0 < n) ->
  (if BuildDataLoader.shuffle self
   then bind (ds_len (BuildDataLoader.dataset self))
          (fun n => if n <=? 0 then Raise ValueError else Ok tt)
   else Ok tt) = Ok tt.
Proof.
  intros [Hshuffle | [n [Hn Hpos]]].
  - now rewrite Hshuffle.
  - destruct (BuildDataLoader.shuffle self); [| reflexivity].
    rewrite Hn. simpl. apply Z.leb_gt in Hpos. now rewrite Hpos.
Qed.

Lemma loader_bad_batch_size (self : BuildDataLoader.t D) (next : nat) :
  0 <= BuildDataLoader.num_workers self ->
  BuildDataLoader.shuffle self = false
  \/ (exists n, ds_len (BuildDataLoader.dataset self) = Ok n /\ 0 < n) ->
  BuildDataLoader.batch_size self <= 0 ->
  @BuildDataLoader.loader elt Label D DS self next = (Raise ValueError, next).
Proof.
  intros Hw Hs Hb.
  unfold BuildDataLoader.loader, BuildDataLoader.DataLoader_init.
  apply Z.ltb_ge in Hw. apply Z.leb_le in Hb.
  rewrite Hw, (sampler_made self Hs). simpl. now rewrite Hb.
Qed.

Lemma loader_returns (self : BuildDataLoader.t D) (next : nat) :
  0 <= BuildDataLoader.num_workers self ->
  BuildDataLoader.shuffle self = false
  \/ (exists n, ds_len (BuildDataLoader.dataset self) = Ok n /\ 0 < n) ->
  0 < BuildDataLoader.batch_size self ->
  @BuildDataLoader.loader elt Label D DS self next
  = (Ok {| py_id := next;
           value_of :=
             {| BuildDataLoader.dl_dataset := BuildDataLoader.dataset self;
                BuildDataLoader.dl_batch_size := BuildDataLoader.batch_size self;
                BuildDataLoader.dl_shuffle := BuildDataLoader.shuffle self;
                BuildDataLoader.dl_num_workers :=
                  BuildDataLoader.num_workers self;
                BuildDataLoader.dl_collate_fn :=
                  BuildDataLoader.collect_fn self;
                BuildDataLoader.dl_drop_last := false |} |},
     S next).
Proof.
  intros Hw Hs Hb.
  unfold BuildDataLoader.loader, BuildDataLoader.DataLoader_init.
  apply Z.ltb_ge in Hw. apply Z.leb_gt in Hb.
  rewrite Hw, (sampler_made self Hs). simpl. now rewrite Hb.
Qed.
End LoaderFacts.

Section LoaderClaims.
Variables elt Label D : Type.
Context {DS : Dataset D (Tensor elt * Label)}.

(** C2.  On a batch that is not empty and whose clips all have the shape of
    the first, [collect_fn] returns a record with the two keys "videos" and
    "labels" and no other.  "videos" is the stack of the clips: its shape
    is the number of pairs followed by the shape of a clip, its elements are
    those of the clips one clip after the other, and, the clips holding as
    many elements as their shape says, its slice at position [k] is the
    clip of the pair at position [k].  "labels" is the list of the labels of
    the pairs, as many and in the same order. *)
Theorem C2_collect_fn_stacks (self : BuildDataLoader.t D)
  (first : Tensor elt * Label) (rest : list (Tensor elt * Label)) :
  (forall item, In item (first :: rest) -> shape (fst item) = shape (fst first)) ->
  exists videos,
    BuildDataLoader.collect_fn self (first :: rest)
    = Ok [("videos", BuildDataLoader.VTensor Label videos);
          ("labels", BuildDataLoader.VList elt (map snd (first :: rest)))]
    /\ dict_keys [("videos", BuildDataLoader.VTensor Label videos);
                  ("labels", BuildDataLoader.VList elt (map snd (first :: rest)))]
       = ["videos"; "labels"]
    /\ torch_stack (map fst (first :: rest)) = Ok videos
    /\ shape videos = length (first :: rest) :: shape (fst first)
    /\ data videos = concat (map (fun item => data (fst item)) (first :: rest))
    /\ length (map snd (first :: rest)) = length (first :: rest)
    /\ (forall (k : nat) (item : Tensor elt * Label),
          nth_error (first :: rest) k = Some item ->
          nth_error (map snd (first :: rest)) k = Some (snd item))
    /\ ((forall item, In item (first :: rest) -> well_formed (fst item)) ->
        forall (k : nat) (item : Tensor elt * Label),
          nth_error (first :: rest) k = Some item ->
          tensor_select videos k = Some (fst item)).
Proof.
  intros Hshape.
  set (batch := first :: rest) in *.
  assert (Hstack : torch_stack (map fst batch)
                   = Ok {| shape := length batch :: shape (fst first);
                           data := concat (map (@data elt) (map fst batch)) |}).
  { unfold batch. simpl map. rewrite torch_stack_same_shape.
    - simpl. now rewrite length_map.
    - intros x Hx. apply in_map_iff in Hx. destruct Hx as [item [<- Hitem]].
      apply Hshape. now right. }
  exists {| shape := length batch :: shape (fst first);
            data := concat (map (@data elt) (map fst batch)) |}.
  split; [rewrite collect_fn_stack, Hstack; reflexivity |].
  split; [reflexivity |].
  split; [exact Hstack |].
  split; [reflexivity |].
  split; [simpl; now rewrite map_map |].
  split; [apply length_map |].
  split.
  { intros k item Hk. rewrite nth_error_map, Hk. reflexivity. }
  intros Hwf k item Hk. unfold tensor_select. cbn [shape data].
  assert (Hlt : (k < length batch)%nat)
    by (apply nth_error_Some; rewrite Hk; discriminate).
  apply Nat.ltb_lt in Hlt. rewrite Hlt. f_equal.
  assert (Hin : In item batch) by (eapply nth_error_In; exact Hk).
  rewrite (slice_concat (numel (shape (fst first)))
             (map (@data elt) (map fst batch)) k (data (fst item))).
  - rewrite <- (Hshape item Hin). now destruct (fst item).
  - apply Forall_forall. intros y Hy.
    rewrite map_map in Hy. apply in_map_iff in Hy.
    destruct Hy as [item' [<- Hitem]].
    rewrite (Hwf _ Hitem). now rewrite (Hshape _ Hitem).
  - rewrite map_map, nth_error_map, Hk. reflexivity.
Qed.

(** C10.  On the empty batch [collect_fn] raises, the error of the stack of
    no tensor, and returns no record; so a batch on which it returns a
    record is not empty. *)
Theorem C10_collect_fn_empty_raises (self : BuildDataLoader.t D) :
  BuildDataLoader.collect_fn self (@nil (Tensor elt * Label))
  = Raise RuntimeError
  /\ torch_stack (@nil (Tensor elt)) = Raise RuntimeError
  /\ (forall (batch : list (Tensor elt * Label))
             (record : dict (BuildDataLoader.value elt Label)),
        BuildDataLoader.collect_fn self batch = Ok record -> batch <> []).
Proof.
  split; [reflexivity |].
  split; [reflexivity |].
  intros batch record H Hempty. subst batch. discriminate H.
Qed.

(** C6.  What a call of [loader()] does, for every stored configuration.
    It raises [ValueError] when the stored worker count is negative; with
    the shuffle flag set it raises the error of [len(dataset)], or
    [ValueError] when that length is not positive; it raises [ValueError]
    when the stored batch size is not positive.  Every other call returns a
    new object, one that no earlier call returned, set up with exactly the
    dataset, the batch size, the shuffle flag and the worker count of
    [self] and with [collect_fn] of [self] as its collation function; the
    next call returns another object set up alike.  With a worker count
    that is not negative, [shuffle] off, a batch size above zero and a
    dataset of length [n], the call returns, and one pass over the loader
    goes through the indices [0 .. n-1] in this order, each once, in
    [ceil(n / batch_size)] batches, none empty or larger than the batch
    size, and all but the last of the batch size. *)
Theorem C6_loader_and_sequential_pass (self : BuildDataLoader.t D) (next : nat)
  (randperm : nat -> list Z) :
  let config :=
    {| BuildDataLoader.dl_dataset := BuildDataLoader.dataset self;
       BuildDataLoader.dl_batch_size := BuildDataLoader.batch_size self;
       BuildDataLoader.dl_shuffle := BuildDataLoader.shuffle self;
       BuildDataLoader.dl_num_workers := BuildDataLoader.num_workers self;
       BuildDataLoader.dl_collate_fn := BuildDataLoader.collect_fn self;
       BuildDataLoader.dl_drop_last := false |} in
  let sampler_ok :=
    BuildDataLoader.shuffle self = false
    \/ exists n, ds_len (BuildDataLoader.dataset self) = Ok n /\ 0 < n in
  (BuildDataLoader.num_workers self < 0 ->
   BuildDataLoader.loader self next = (Raise ValueError, next))
  /\ (0 <= BuildDataLoader.num_workers self ->
      BuildDataLoader.shuffle self = true ->
      (forall e,
         ds_len (BuildDataLoader.dataset self) = Raise e ->
         BuildDataLoader.loader self next = (Raise e, next))
      /\ (forall n,
            ds_len (BuildDataLoader.dataset self) = Ok n -> n <= 0 ->
            BuildDataLoader.loader self next = (Raise ValueError, next)))
  /\ (0 <= BuildDataLoader.num_workers self ->
      sampler_ok ->
      BuildDataLoader.batch_size self <= 0 ->
      BuildDataLoader.loader self next = (Raise ValueError, next))
  /\ (0 <= BuildDataLoader.num_workers self ->
      sampler_ok ->
      0 < BuildDataLoader.batch_size self ->
      exists dl,
        BuildDataLoader.loader self next = (Ok dl, S next)
        /\ py_id dl = next
        /\ value_of dl = config
        /\ forall later : nat,
             (next < later)%nat ->
             exists dl',
               BuildDataLoader.loader self later = (Ok dl', S later)
               /\ Nat.eqb (py_id dl') (py_id dl) = false
               /\ value_of dl' = value_of dl)
  /\ (forall n : Z,
        0 <= BuildDataLoader.num_workers self ->
        BuildDataLoader.shuffle self = false ->
        0 < BuildDataLoader.batch_size self ->
        ds_len (BuildDataLoader.dataset self) = Ok n ->
        0 <= n ->
        exists dl batches,
          BuildDataLoader.loader self next = (Ok dl, S next)
          /\ BuildDataLoader.dl_batches randperm (value_of dl) = Ok batches
          /\ concat batches = range (Z.to_nat n)
          /\ Z.of_nat (length batches)
             = (n + BuildDataLoader.batch_size self - 1)
               / BuildDataLoader.batch_size self
          /\ Forall (fun b => 0 < Z.of_nat (length b)
                              <= BuildDataLoader.batch_size self) batches
          /\ (forall (k : nat) (b : list Z),
                (S k < length batches)%nat ->
                nth_error batches k = Some b ->
                Z.of_nat (length b) = BuildDataLoader.batch_size self)).
Proof.
  intros config sampler_ok.
  split; [intros Hw; now apply loader_negative_workers |].
  split.
  { intros Hw Hshuffle. split.
    - intros e He. now apply loader_length_error.
    - intros n Hn Hle. now apply (loader_empty_shuffle elt Label D self next n). }
  split; [intros Hw Hs Hb; now apply loader_bad_batch_size |].
  split.
  { intros Hw Hs Hb. eexists. split; [now apply loader_returns |].
    split; [reflexivity |]. split; [reflexivity |].
    intros later Hlater. eexists. split; [now apply loader_returns |].
    split; [apply Nat.eqb_neq; simpl; lia | reflexivity]. }
  intros n Hw Hshuffle Hpos Hlen Hn.
  eexists. eexists. split; [apply loader_returns; auto |].
  unfold BuildDataLoader.dl_batches, BuildDataLoader.dl_sampler. simpl.
  rewrite Hlen, Hshuffle. simpl. split; [reflexivity |].
  split; [apply (batch_loop_concat _ _ []) |].
  split.
  { rewrite batch_loop_length by (simpl; lia).
    rewrite range_length. simpl length. f_equal. lia. }
  split; [apply batch_loop_sizes; simpl; lia |].
  intros k b. now apply batch_loop_full.
Qed.
End LoaderClaims.

(** * The code at work on the scenario *)

Lemma locate_ok (c : Fixture.clips) (start : Z) (i : nat) :
  (i < length (concat (map snd c)))%nat ->
  exists video video_idx,
    Fixture.locate c start i = Ok (video, tt, tt, video_idx)
    /\ start <= video_idx < start + Z.of_nat (length c).
Proof.
  revert start i; induction c as [| [path cs] c IH]; intros start i Hi; simpl in *.
  - lia.
  - destruct (nth_error cs i) as [video |] eqn:Hnth.
    + exists video, start. split; [reflexivity | lia].
    + apply nth_error_None in Hnth. rewrite length_app in Hi.
      destruct (IH (start + 1) (i - length cs)%nat) as [video [k [Hk Hrange]]];
        [lia |].
      exists video, k. split; [exact Hk | lia].
Qed.

(** The clip collection in memory keeps to the contract. *)
Lemma memory_clips_contract (store : string -> list (Tensor Z)) :
  VideoClipsContract (Fixture.memory_clips store).
Proof.
  constructor; simpl.
  - intros paths _. rewrite map_map. simpl. apply map_id.
  - intros c idxs _. rewrite map_map. apply map_ext. intros i.
    now rewrite <- (map_nth fst).
  - intros c. rewrite length_map. now rewrite map_nth_range.
  - intros c idx n Hn Hidx.
    assert (Hcount : n = Fixture.count c)
      by (destruct c; [discriminate Hn | now inversion Hn]).
    subst n. clear Hn.
    replace ((0 <=? idx) && (idx <? Fixture.count c)) with true
      by (symmetry; apply andb_true_iff; split;
          [apply Z.leb_le | apply Z.ltb_lt]; lia).
    destruct (locate_ok c 0 (Z.to_nat idx)) as [video [k [Hk Hrange]]].
    + unfold Fixture.count in Hidx. lia.
    + exists video, tt, tt, k. rewrite length_map. split; [exact Hk | lia].
Qed.

#[local] Existing Instance Fixture.fs.
#[local] Existing Instance Fixture.api.

(** The training split of the scenario: two classes, five files, the files
    of a directory before those of its subdirectory, the file that is no
    video among them and the entry that is no file left out. *)
Example scenario_dataset :
  HMDB51.__init__ "data" Fixture.args true None = Ok Fixture.train_dataset
  /\ HMDB51.classes Fixture.train_dataset = ["run"; "walk"]
  /\ HMDB51.samples Fixture.train_dataset
     = [("data/train/run/a.avi", 0); ("data/train/run/b.avi", 0);
        ("data/train/run/notes.txt", 0); ("data/train/run/extra/d.avi", 0);
        ("data/train/walk/c.avi", 1)]
  /\ HMDB51.indices Fixture.train_dataset = [0; 1; 2; 3; 4]
  /\ fst (HMDB51.__len__ Fixture.train_dataset) = Ok 4.
Proof. repeat split. Qed.

Lemma scenario_names_NoDup : NoDup ["walk"; "run"].
Proof.
  constructor; [simpl; intros [H | []]; discriminate H |].
  constructor; [simpl; tauto | constructor].
Qed.

(** Its four clips with their labels; an index out of range raises. *)
Example scenario_items :
  map (fun idx => fst (HMDB51.__getitem__ idx Fixture.train_dataset))
    [0; 1; 2; 3; 4]
  = [Ok (Fixture.frame 10, 0); Ok (Fixture.frame 11, 0);
     Ok (Fixture.frame 40, 0); Ok (Fixture.frame 30, 1); Raise IndexError].
Proof. reflexivity. Qed.

(** One pass of the loader with batches of three: a full batch, then a
    short one. *)
Example scenario_pass :
  match fst (@BuildDataLoader.loader Z Z _ _ Fixture.train_build_loader 0) with
  | Ok dl => BuildDataLoader.dl_pass (fun _ => []) (value_of dl)
  | Raise e => Raise e
  end
  = Ok [Ok [("videos",
             BuildDataLoader.VTensor Z
               {| shape := [3; 1; 1]%nat; data := [10; 11; 40] |});
            ("labels", BuildDataLoader.VList Z [0; 0; 0])];
        Ok [("videos",
             BuildDataLoader.VTensor Z
               {| shape := [1; 1; 1]%nat; data := [30] |});
            ("labels", BuildDataLoader.VList Z [1])]].
Proof. reflexivity. Qed.

(** A split directory that is not there: the error of the listing comes out
    of the constructor. *)
Example scenario_missing_split :
  @HMDB51.__init__ (Fixture.tree_fs "data" (Fixture.Dir [])) Fixture.api
    "data" Fixture.args true None
  = Raise OSError.
Proof. reflexivity. Qed.

(** Clips of two shapes do not stack. *)
Example scenario_shape_mismatch :
  BuildDataLoader.collect_fn Fixture.train_build_loader
    [(Fixture.frame 10, 0); ({| shape := [1]%nat; data := [11] |}, 1)]
  = Raise RuntimeError.
Proof. reflexivity. Qed.

Lemma C4_split_and_class_indices_witness :
  list_dir (HMDB51.split_root "data" true) = Ok ["walk"; "run"]
  /\ NoDup ["walk"; "run"]
  /\ HMDB51.split_root "data" true = "data/train"
  /\ HMDB51.split_root "data" false = "data/test"
  /\ (exists ds,
        HMDB51.__init__ "data" Fixture.args true None = Ok ds
        /\ HMDB51.train ds = true
        /\ Permutation (HMDB51.classes ds) ["walk"; "run"]
        /\ StronglySorted (fun a b => String.leb a b = true) (HMDB51.classes ds)
        /\ (forall (n : nat) (c : string),
              nth_error (HMDB51.classes ds) n = Some c
              <-> dict_find (HMDB51.class_to_idx_of (HMDB51.classes ds)) c
                  = Some (Z.of_nat n)))
  /\ HMDB51.class_to_idx_of (sorted str_ltb ["cartwheel"; "brush_hair"])
     = [("brush_hair", 0); ("cartwheel", 1)]
  /\ sorted str_ltb ["apple"; "Zebra"; "zebra"; "Apple"]
     = ["Apple"; "Zebra"; "apple"; "zebra"].
Proof.
  assert (Hdir : list_dir (HMDB51.split_root "data" true) = Ok ["walk"; "run"])
    by reflexivity.
  assert (Hnd : NoDup ["walk"; "run"]) by exact scenario_names_NoDup.
  split; [exact Hdir |]. split; [exact Hnd |].
  exact (C4_split_and_class_indices "data" Fixture.args true None
           ["walk"; "run"] Hdir Hnd).
Defined.


Lemma C9_no_extension_filter_witness :
  list_dir (HMDB51.split_root "data" true) = Ok ["walk"; "run"]
  /\ In "run" ["walk"; "run"]
  /\ In ("data/train/run", ["extra"], ["b.avi"; "notes.txt"; "a.avi"; "pipe"])
       (os_walk (os_path_join (HMDB51.split_root "data" true) "run"))
  /\ In "notes.txt" ["b.avi"; "notes.txt"; "a.avi"; "pipe"]
  /\ os_path_isfile (os_path_join "data/train/run" "notes.txt") = true
  /\ exists ds,
       HMDB51.__init__ "data" Fixture.args true None = Ok ds
       /\ exists class_index,
            In ("data/train/run/notes.txt", class_index) (HMDB51.samples ds)
            /\ nth_error (HMDB51.classes ds) (Z.to_nat class_index) = Some "run".
Proof.
  assert (Hdir : list_dir (HMDB51.split_root "data" true) = Ok ["walk"; "run"])
    by reflexivity.
  assert (Hclass : In "run" ["walk"; "run"]) by (simpl; tauto).
  assert (Hwalk : In ("data/train/run", ["extra"],
                      ["b.avi"; "notes.txt"; "a.avi"; "pipe"])
                    (os_walk (os_path_join (HMDB51.split_root "data" true) "run")))
    by (left; reflexivity).
  assert (Hname : In "notes.txt" ["b.avi"; "notes.txt"; "a.avi"; "pipe"])
    by (simpl; tauto).
  assert (Hfile : os_path_isfile (os_path_join "data/train/run" "notes.txt") = true)
    by reflexivity.
  repeat (split; [assumption |]).
  destruct (@C9_no_extension_filter Fixture.fs Fixture.api
              "data" Fixture.args true None
              ["walk"; "run"] Hdir) as [_ [ds [Hinit Hall]]].
  exists ds. split; [exact Hinit |].
  exact (Hall "run" "data/train/run" ["extra"]
           ["b.avi"; "notes.txt"; "a.avi"; "pipe"] "notes.txt"
           Hclass Hwalk Hname Hfile).
Defined.

Lemma C1_item_label_witness :
  HMDB51.__init__ "data" Fixture.args true None = Ok Fixture.train_dataset
  /\ fst (HMDB51.__len__ Fixture.train_dataset) = Ok 4
  /\ 0 <= 2 < 4
  /\ exists video audio info video_idx path label class_ names,
       vc_get_clip (HMDB51.video_clips Fixture.train_dataset) 2
       = Ok (video, audio, info, video_idx)
       /\ HMDB51.__getitem__ 2 Fixture.train_dataset
          = (Ok (video, label), Fixture.train_dataset)
       /\ 0 <= video_idx
       /\ nth_error (vc_video_paths (HMDB51.video_clips Fixture.train_dataset))
            (Z.to_nat video_idx) = Some path
       /\ nth_error (HMDB51.samples Fixture.train_dataset) (Z.to_nat video_idx)
          = Some (path, label)
       /\ 0 <= label
       /\ nth_error (HMDB51.classes Fixture.train_dataset) (Z.to_nat label)
          = Some class_
       /\ In path (Spec.files_of_class (HMDB51.split_root "data" true) class_)
       /\ list_dir (HMDB51.split_root "data" true) = Ok names
       /\ HMDB51.classes Fixture.train_dataset = sorted str_ltb names.
Proof.
  assert (Hinit : HMDB51.__init__ "data" Fixture.args true None
                  = Ok Fixture.train_dataset) by reflexivity.
  assert (Hlen : fst (HMDB51.__len__ Fixture.train_dataset) = Ok 4)
    by reflexivity.
  assert (Hi : 0 <= 2 < 4) by lia.
  split; [exact Hinit |]. split; [exact Hlen |]. split; [exact Hi |].
  exact (@C1_item_label Fixture.fs Fixture.api
           (memory_clips_contract Fixture.store)
           "data" Fixture.args true None Fixture.train_dataset 2 4
           Hinit Hlen Hi).
Defined.

Lemma C3_identity_indices_and_length_witness :
  HMDB51.__init__ "data" Fixture.args true None = Ok Fixture.train_dataset
  /\ HMDB51.indices Fixture.train_dataset = [0; 1; 2; 3; 4]
  /\ vc_num_clips
       (VideoClips (map fst (HMDB51.samples Fixture.train_dataset)) Fixture.args)
     = Ok 4
  /\ fst (HMDB51.__len__ Fixture.train_dataset) = Ok 4.
Proof.
  assert (Hinit : HMDB51.__init__ "data" Fixture.args true None
                  = Ok Fixture.train_dataset) by reflexivity.
  assert (Hcount : vc_num_clips
                     (VideoClips
                        (map fst (HMDB51.samples Fixture.train_dataset))
                        Fixture.args)
                   = Ok 4) by reflexivity.
  destruct (@C3_identity_indices_and_length Fixture.fs Fixture.api
              (memory_clips_contract Fixture.store)
              "data" Fixture.args true None Fixture.train_dataset Hinit)
    as [_ [_ [Hindices [_ [_ [Hlen _]]]]]].
  split; [exact Hinit |].
  split; [rewrite Hindices; reflexivity |].
  split; [exact Hcount | exact (Hlen 4 Hcount)].
Defined.

Lemma C2_collect_fn_stacks_witness :
  (forall item,
     In item [(Fixture.frame 10, 0); (Fixture.frame 11, 0)] ->
     shape (fst item) = shape (Fixture.frame 10))
  /\ BuildDataLoader.collect_fn Fixture.train_build_loader
       [(Fixture.frame 10, 0); (Fixture.frame 11, 0)]
     = Ok [("videos",
            BuildDataLoader.VTensor Z
              {| shape := [2; 1; 1]%nat; data := [10; 11] |});
           ("labels", BuildDataLoader.VList Z [0; 0])].
Proof.
  assert (Hshape : forall item,
             In item [(Fixture.frame 10, 0); (Fixture.frame 11, 0)] ->
             shape (fst item) = shape (Fixture.frame 10)).
  { intros item [<- | [<- | []]]; reflexivity. }
  split; [exact Hshape |].
  destruct (C2_collect_fn_stacks Z Z _ Fixture.train_build_loader
              (Fixture.frame 10, 0) [(Fixture.frame 11, 0)] Hshape)
    as [videos [Hrecord [_ [Hstack _]]]].
  rewrite Hrecord. simpl in Hstack. inversion Hstack. reflexivity.
Defined.

Lemma C6_loader_and_sequential_pass_witness :
  0 <= BuildDataLoader.num_workers Fixture.train_build_loader
  /\ BuildDataLoader.shuffle Fixture.train_build_loader = false
  /\ 0 < BuildDataLoader.batch_size Fixture.train_build_loader
  /\ ds_len (BuildDataLoader.dataset Fixture.train_build_loader) = Ok 4
  /\ 0 <= 4
  /\ exists dl batches,
       @BuildDataLoader.loader Z Z _ _ Fixture.train_build_loader 0
       = (Ok dl, 1%nat)
       /\ BuildDataLoader.dl_batches (fun _ => []) (value_of dl) = Ok batches
       /\ concat batches = [0; 1; 2; 3]
       /\ Z.of_nat (length batches) = 2.
Proof.
  assert (Hworkers : 0 <= BuildDataLoader.num_workers Fixture.train_build_loader)
    by (simpl; lia).
  assert (Hshuffle : BuildDataLoader.shuffle Fixture.train_build_loader = false)
    by reflexivity.
  assert (Hpos : 0 < BuildDataLoader.batch_size Fixture.train_build_loader)
    by reflexivity.
  assert (Hlen : ds_len (BuildDataLoader.dataset Fixture.train_build_loader)
                 = Ok 4) by reflexivity.
  assert (Hn : 0 <= 4) by lia.
  repeat (split; [assumption |]).
  destruct (C6_loader_and_sequential_pass Z Z _ Fixture.train_build_loader 0
              (fun _ => [])) as [_ [_ [_ [_ Hpass]]]].
  destruct (Hpass 4 Hworkers Hshuffle Hpos Hlen Hn)
    as [dl [batches [Hloader [Hbatches [Hconcat [Hcount _]]]]]].
  exists dl, batches.
  split; [exact Hloader |]. split; [exact Hbatches |].
  split; [exact Hconcat | exact Hcount].
Defined.

(** A loader with the shuffle flag off, a positive batch size and a dataset
    of four clips, whose worker count is negative: the call of [loader()]
    returns no object. *)
Lemma C6_loader_raises_counterexample :
  BuildDataLoader.shuffle Fixture.negative_workers_loader = false
  /\ 0 < BuildDataLoader.batch_size Fixture.negative_workers_loader
  /\ ds_len (BuildDataLoader.dataset Fixture.negative_workers_loader) = Ok 4
  /\ @BuildDataLoader.loader Z Z _ _ Fixture.negative_workers_loader 0
     = (Raise ValueError, 0%nat)
  /\ ~ (exists dl next,
          @BuildDataLoader.loader Z Z _ _ Fixture.negative_workers_loader 0
          = (Ok dl, next)).
Proof.
  repeat (split; [reflexivity |]).
  intros [dl [next H]]. discriminate H.
Qed.

(** * More about the constructor *)

Lemma StronglySorted_app {A : Type} (R : A -> A -> Prop) (l1 l2 : list A) :
  StronglySorted R l1 -> StronglySorted R l2 ->
  (forall a b, In a l1 -> In b l2 -> R a b) ->
  StronglySorted R (l1 ++ l2).
Proof.
  induction 1 as [| x l1 Hs IH Hx]; intros H2 Hcross; simpl; [exact H2 |].
  constructor.
  - apply IH; [exact H2 |]. intros a b Ha Hb. apply Hcross; [now right | exact Hb].
  - apply Forall_app. split; [exact Hx |].
    apply Forall_forall. intros b Hb. apply Hcross; [now left | exact Hb].
Qed.

Section SampleOrder.
Context {FS : FileSystem}.

(** In the sample list of the specification the labels start at the first
    index, stay below the number of classes and never go down. *)
Lemma samples_spec_labels (root : string) (classes : list string) (start : Z) :
  let samples :=
    flat_map
      (fun '(class_index, class_) =>
         map (fun path => (path, class_index)) (Spec.files_of_class root class_))
      (enumerate_from start classes) in
  Forall (fun s => start <= snd s < start + Z.of_nat (length classes)) samples
  /\ StronglySorted (fun a b => snd a <= snd b) samples.
Proof.
  revert start; induction classes as [| c classes IH]; intros start; simpl.
  - split; constructor.
  - destruct (IH (start + 1)) as [Hrange Hsorted]. split.
    + apply Forall_app. split.
      * apply Forall_forall. intros s Hs. apply in_map_iff in Hs.
        destruct Hs as [p [<- _]]. simpl. lia.
      * eapply Forall_impl; [| exact Hrange]. simpl. intros s Hs. lia.
    + apply StronglySorted_app; [| exact Hsorted |].
      * induction (Spec.files_of_class root c) as [| p l IHl]; simpl;
          constructor; [exact IHl |].
        apply Forall_forall. intros s Hs. apply in_map_iff in Hs.
        destruct Hs as [q [<- _]]. simpl. lia.
      * intros a b Ha Hb. apply in_map_iff in Ha. destruct Ha as [p [<- _]].
        rewrite Forall_forall in Hrange. apply Hrange in Hb. simpl. lia.
Qed.
End SampleOrder.

Section ConstructionExtras.
Context {FS : FileSystem} {API : VideoClipsAPI}.

(** X1.  When the split directory lists as [names] (no name twice), the
    samples of the constructed dataset stand class by class: along the
    sample list the labels never go down, and every label is an index into
    the class list, from zero to below the number of classes. *)
Theorem X1_samples_grouped_by_class (root : string) (args : clip_args Metadata)
  (train : bool) (transform : option (Video -> Video)) (names : list string) :
  list_dir (HMDB51.split_root root train) = Ok names ->
  NoDup names ->
  exists ds,
    HMDB51.__init__ root args train transform = Ok ds
    /\ StronglySorted (fun a b => snd a <= snd b) (HMDB51.samples ds)
    /\ Forall (fun s => 0 <= snd s < Z.of_nat (length (HMDB51.classes ds)))
         (HMDB51.samples ds)
    /\ length (HMDB51.classes ds) = length names.
Proof.
  intros Hdir Hnd.
  exists (constructed root args train transform names).
  split; [now apply init_with_ok |]. simpl.
  rewrite samples_of_spec;
    [| now apply sorted_NoDup | apply sorted_Sorted, str_ltb_asym].
  destruct (samples_spec_labels (HMDB51.split_root root train)
              (sorted str_ltb names) 0) as [Hrange Hsorted].
  split; [exact Hsorted |].
  split; [exact Hrange |].
  apply Permutation_length, sorted_perm.
Qed.

(** X2.  When the split directory lists as [names] (no name twice), the
    sample list holds a pair of a path and a label exactly when the label
    is the position of a class in the class list and the path is a regular
    file named in a directory of the walk of the directory of that class:
    no directory, no entry that is not a regular file and no file from
    elsewhere is ever a sample. *)
Theorem X2_samples_are_the_walked_files (root : string)
  (args : clip_args Metadata) (train : bool)
  (transform : option (Video -> Video)) (names : list string) :
  list_dir (HMDB51.split_root root train) = Ok names ->
  NoDup names ->
  exists ds,
    HMDB51.__init__ root args train transform = Ok ds
    /\ forall (path : string) (label : Z),
         In (path, label) (HMDB51.samples ds)
         <-> exists class_ dirpath dirs fnames fname,
               0 <= label
               /\ nth_error (HMDB51.classes ds) (Z.to_nat label) = Some class_
               /\ In (dirpath, dirs, fnames)
                    (os_walk (os_path_join (HMDB51.split_root root train) class_))
               /\ In fname fnames
               /\ path = os_path_join dirpath fname
               /\ os_path_isfile path = true.
Proof.
  intros Hdir Hnd.
  exists (constructed root args train transform names).
  split; [now apply init_with_ok |]. simpl.
  assert (Hnd' : NoDup (sorted str_ltb names)) by now apply sorted_NoDup.
  intros path label. split.
  - intros Hin. apply in_samples_of in Hin.
    destruct Hin as [class_ [Hlabel [Hclass Hfile]]].
    apply in_files_of_class in Hfile.
    destruct Hfile as [dirpath [dirs [fnames [fname Hf]]]].
    exists class_, dirpath, dirs, fnames, fname. tauto.
  - intros [class_ [dirpath [dirs [fnames [fname
      [Hlabel [Hclass [Hwalk [Hf [Hpath Hfile]]]]]]]]]].
    destruct (samples_of_in (HMDB51.split_root root train)
                (sorted str_ltb names) class_ path) as [i [Hin Hi]].
    + eapply nth_error_In; exact Hclass.
    + apply in_files_of_class. exists dirpath, dirs, fnames, fname. tauto.
    + assert (Hi0 : 0 <= i).
      { apply in_samples_of in Hin. destruct Hin as [c [H0 _]]. exact H0. }
      assert (Heq : Z.to_nat i = Z.to_nat label).
      { rewrite NoDup_nth_error in Hnd'. apply Hnd'.
        - apply nth_error_Some. rewrite Hi. discriminate.
        - now rewrite Hi, Hclass. }
      replace label with i by lia. exact Hin.
Qed.

(** X3.  The two splits never share a directory: whatever the root, the
    directory of the train split and that of the test split are different
    paths, and each starts with the root. *)
Theorem X3_split_directories_differ (root : string) :
  String.eqb (HMDB51.split_root root true) (HMDB51.split_root root false) = false
  /\ String.prefix root (HMDB51.split_root root true) = true
  /\ String.prefix root (HMDB51.split_root root false) = true.
Proof.
  unfold HMDB51.split_root. repeat split.
  - apply String.eqb_neq. induction root as [| c root IH]; simpl.
    + discriminate.
    + intros H. inversion H. contradiction.
  - induction root as [| c root IH]; simpl; [reflexivity |].
    destruct (ascii_dec c c); [exact IH | contradiction].
  - induction root as [| c root IH]; simpl; [reflexivity |].
    destruct (ascii_dec c c); [exact IH | contradiction].
Qed.
End ConstructionExtras.

(** * More about [item] *)

Lemma py_getitem_range (n : nat) (k : Z) :
  py_getitem (range n) k
  = if (- Z.of_nat n <=? k) && (k <? Z.of_nat n)
    then Ok (if k <? 0 then k + Z.of_nat n else k)
    else Raise IndexError.
Proof.
  unfold py_getitem. rewrite range_length.
  destruct (k <? 0) eqn:Hneg;
    [apply Z.ltb_lt in Hneg | apply Z.ltb_ge in Hneg].
  - destruct (- Z.of_nat n <=? k) eqn:Hlow;
      [apply Z.leb_le in Hlow | apply Z.leb_gt in Hlow].
    + replace (k <? Z.of_nat n) with true by (symmetry; apply Z.ltb_lt; lia).
      replace ((0 <=? k + Z.of_nat n) && (k + Z.of_nat n <? Z.of_nat n))
        with true
        by (symmetry; apply andb_true_iff; split;
            [apply Z.leb_le | apply Z.ltb_lt]; lia).
      simpl. rewrite nth_error_range by lia. f_equal. lia.
    + replace (0 <=? k + Z.of_nat n) with false
        by (symmetry; apply Z.leb_gt; lia).
      reflexivity.
  - replace (- Z.of_nat n <=? k) with true by (symmetry; apply Z.leb_le; lia).
    replace (0 <=? k) with true by (symmetry; apply Z.leb_le; lia).
    simpl. destruct (k <? Z.of_nat n) eqn:Hhigh; [| reflexivity].
    apply Z.ltb_lt in Hhigh. rewrite nth_error_range by lia. f_equal. lia.
Qed.

Lemma py_getitem_ok {A : Type} (l : list A) (i : Z) :
  0 <= i < Z.of_nat (length l) ->
  exists a, nth_error l (Z.to_nat i) = Some a /\ py_getitem l i = Ok a.
Proof.
  intros Hi. destruct (nth_error l (Z.to_nat i)) as [a |] eqn:Hnth.
  - exists a. split; [reflexivity |]. apply py_getitem_nth; [lia | exact Hnth].
  - apply nth_error_None in Hnth. lia.
Qed.

Section ItemExtras.
Context {FS : FileSystem} {API : VideoClipsAPI}.

(** X4.  On a constructed dataset with [n] samples, what [item(idx)] does
    follows from what the clip collection answers.  When [get_clip] raises,
    [item] raises the same error.  When it returns a clip with
    [0 <= video_idx < n], [item] returns the clip (transformed, when a
    transform was given) with the label of the sample at [video_idx]; with
    [-n <= video_idx < 0] the position counts from the end, as Python
    indexes, and the label is that of the sample at [video_idx + n]; with
    any other [video_idx], [item] raises [IndexError].  The object is never
    changed. *)
Theorem X4_item_by_cases (root : string) (args : clip_args Metadata)
  (train : bool) (transform : option (Video -> Video)) (ds : HMDB51.t)
  (idx : Z) :
  HMDB51.__init__ root args train transform = Ok ds ->
  let n := Z.of_nat (length (HMDB51.samples ds)) in
  let apply video := match transform with
                     | Some f => f video
                     | None => video
                     end in
  (forall e,
     vc_get_clip (HMDB51.video_clips ds) idx = Raise e ->
     HMDB51.__getitem__ idx ds = (Raise e, ds))
  /\ (forall video audio info video_idx,
        vc_get_clip (HMDB51.video_clips ds) idx
        = Ok (video, audio, info, video_idx) ->
        (0 <= video_idx < n ->
         exists path label,
           nth_error (HMDB51.samples ds) (Z.to_nat video_idx)
           = Some (path, label)
           /\ HMDB51.__getitem__ idx ds = (Ok (apply video, label), ds))
        /\ (- n <= video_idx < 0 ->
            exists path label,
              nth_error (HMDB51.samples ds) (Z.to_nat (video_idx + n))
              = Some (path, label)
              /\ HMDB51.__getitem__ idx ds = (Ok (apply video, label), ds))
        /\ (video_idx < - n \/ n <= video_idx ->
            HMDB51.__getitem__ idx ds = (Raise IndexError, ds))).
Proof.
  intros Hinit n apply.
  apply (init_with_inv ["avi"]) in Hinit. destruct Hinit as [names [Hdir Hds]].
  assert (Hindices : HMDB51.indices ds = range (length (HMDB51.samples ds)))
    by (rewrite Hds; reflexivity).
  assert (Htransform : HMDB51.transform ds = transform)
    by (rewrite Hds; reflexivity).
  clear Hds. split.
  - intros e Hclip.
    unfold HMDB51.__getitem__, HMDB51.mbind, HMDB51.getattr, HMDB51.call.
    now rewrite Hclip.
  - intros video audio info video_idx Hclip.
    assert (Hrun : forall j path label,
               py_getitem (HMDB51.indices ds) video_idx = Ok j ->
               py_getitem (HMDB51.samples ds) j = Ok (path, label) ->
               HMDB51.__getitem__ idx ds = (Ok (apply video, label), ds)).
    { intros j path label Hj Hsample. unfold apply. rewrite <- Htransform.
      exact (getitem_run idx ds video audio info video_idx j path label
               Hclip Hj Hsample). }
    rewrite Hindices, py_getitem_range in Hrun. fold n in Hrun.
    split; [| split].
    + intros Hk.
      destruct (py_getitem_ok (HMDB51.samples ds) video_idx Hk)
        as [[path label] [Hnth Hget]].
      exists path, label. split; [exact Hnth |].
      apply (Hrun video_idx path label); [| exact Hget].
      replace (- n <=? video_idx) with true by (symmetry; apply Z.leb_le; lia).
      replace (video_idx <? n) with true by (symmetry; apply Z.ltb_lt; lia).
      replace (video_idx <? 0) with false by (symmetry; apply Z.ltb_ge; lia).
      reflexivity.
    + intros Hk.
      destruct (py_getitem_ok (HMDB51.samples ds) (video_idx + n))
        as [[path label] [Hnth Hget]]; [fold n; lia |].
      exists path, label. split; [exact Hnth |].
      apply (Hrun (video_idx + n) path label); [| exact Hget].
      replace (- n <=? video_idx) with true by (symmetry; apply Z.leb_le; lia).
      replace (video_idx <? n) with true by (symmetry; apply Z.ltb_lt; lia).
      replace (video_idx <? 0) with true by (symmetry; apply Z.ltb_lt; lia).
      reflexivity.
    + intros Hk.
      unfold HMDB51.__getitem__, HMDB51.mbind, HMDB51.getattr, HMDB51.call.
      rewrite Hclip, Hindices, py_getitem_range. fold n.
      replace ((- n <=? video_idx) && (video_idx <? n)) with false;
        [reflexivity |].
      symmetry. apply andb_false_iff.
      destruct Hk; [left; apply Z.leb_gt | right; apply Z.ltb_ge]; lia.
Qed.

(** X5.  With a clip collection that keeps to its contract, the collection a
    constructed dataset keeps is over the paths of its samples, one video
    per sample and in the same order, and the index mapping has one entry
    per sample, no entry twice, and sends every position to itself. *)
Theorem X5_videos_align_with_samples {contract : VideoClipsContract API}
  (root : string) (args : clip_args Metadata) (train : bool)
  (transform : option (Video -> Video)) (ds : HMDB51.t) :
  HMDB51.__init__ root args train transform = Ok ds ->
  vc_video_paths (HMDB51.video_clips ds) = map fst (HMDB51.samples ds)
  /\ length (HMDB51.indices ds) = length (HMDB51.samples ds)
  /\ NoDup (HMDB51.indices ds)
  /\ (forall k : Z,
        0 <= k < Z.of_nat (length (HMDB51.samples ds)) ->
        py_getitem (HMDB51.indices ds) k = Ok k).
Proof.
  intros Hinit.
  apply (init_with_inv ["avi"]) in Hinit. destruct Hinit as [names [Hdir ->]].
  split; [apply constructed_video_paths |].
  simpl. set (samples := samples_of _ _).
  split; [apply range_length |].
  split.
  - unfold range. apply Finite.Injective_map_NoDup; [| apply seq_NoDup].
    intros a b. apply Nat2Z.inj.
  - intros k Hk. rewrite py_getitem_range.
    replace (- Z.of_nat (length samples) <=? k) with true
      by (symmetry; apply Z.leb_le; lia).
    replace (k <? Z.of_nat (length samples)) with true
      by (symmetry; apply Z.ltb_lt; lia).
    replace (k <? 0) with false by (symmetry; apply Z.ltb_ge; lia).
    reflexivity.
Qed.

(** X6.  A transform touches the clip and nothing else.  Of two datasets
    constructed from the same arguments, one without a transform and one
    with the transform [f], the samples and [length()] are the same, and
    [item(idx)] of the second is [item(idx)] of the first with [f] applied
    to the clip: the same label, and the same error when the first
    raises. *)
Theorem X6_transform_only_touches_the_clip (root : string)
  (args : clip_args Metadata) (train : bool) (f : Video -> Video)
  (plain transformed : HMDB51.t) :
  HMDB51.__init__ root args train None = Ok plain ->
  HMDB51.__init__ root args train (Some f) = Ok transformed ->
  HMDB51.samples transformed = HMDB51.samples plain
  /\ HMDB51.classes transformed = HMDB51.classes plain
  /\ fst (HMDB51.__len__ transformed) = fst (HMDB51.__len__ plain)
  /\ forall idx : Z,
       fst (HMDB51.__getitem__ idx transformed)
       = match fst (HMDB51.__getitem__ idx plain) with
         | Ok (video, label) => Ok (f video, label)
         | Raise e => Raise e
         end.
Proof.
  intros Hplain Htransformed.
  apply (init_with_inv ["avi"]) in Hplain.
  destruct Hplain as [names [Hdir ->]].
  apply (init_with_inv ["avi"]) in Htransformed.
  destruct Htransformed as [names' [Hdir' ->]].
  rewrite Hdir in Hdir'. inversion Hdir'; subst names'.
  split; [reflexivity |]. split; [reflexivity |]. split; [reflexivity |].
  intros idx.
  unfold HMDB51.__getitem__, HMDB51.mbind, HMDB51.getattr, HMDB51.call,
    HMDB51.ret.
  cbn [constructed HMDB51.video_clips HMDB51.indices HMDB51.samples
       HMDB51.transform].
  destruct (vc_get_clip _ idx) as [[[[video audio] info] video_idx] | e];
    [| reflexivity].
  destruct (py_getitem _ video_idx) as [sample_index | e]; [| reflexivity].
  destruct (py_getitem _ sample_index) as [[path label] | e]; reflexivity.
Qed.
End ItemExtras.

(** * More about collation *)

Lemma forallb_false_exists {A : Type} (f : A -> bool) (l : list A) :
  forallb f l = false -> exists x, In x l /\ f x = false.
Proof.
  induction l as [| y l IH]; simpl; [discriminate |].
  destruct (f y) eqn:Hy; simpl.
  - intros H. destruct (IH H) as [x [Hin Hx]]. exists x. auto.
  - intros _. exists y. auto.
Qed.

Section CollationExtras.
Variables elt Label D : Type.

(** X7.  [collect_fn] either returns the record of the stacked clips and
    the labels or raises [RuntimeError], and it raises exactly when the
    batch is empty or holds a clip whose shape is not that of the first
    clip. *)
Theorem X7_collect_fn_fails_exactly_when (self : BuildDataLoader.t D)
  (batch : list (Tensor elt * Label)) :
  (BuildDataLoader.collect_fn self batch = Raise RuntimeError
   \/ exists videos,
        BuildDataLoader.collect_fn self batch
        = Ok [("videos", BuildDataLoader.VTensor Label videos);
              ("labels", BuildDataLoader.VList elt (map snd batch))])
  /\ (BuildDataLoader.collect_fn self batch = Raise RuntimeError
      <-> batch = []
          \/ exists first rest item,
               batch = first :: rest
               /\ In item rest
               /\ shape (fst item) <> shape (fst first)).
Proof.
  rewrite collect_fn_stack.
  destruct batch as [| first rest]; [simpl; split; [now left | tauto] |].
  cbn [map torch_stack].
  destruct (forallb _ (map fst rest)) eqn:Hall; cbn [bind].
  - split; [right; eexists; reflexivity |]. split; [discriminate |].
    intros [Hempty | [first' [rest' [item [Heq [Hin Hne]]]]]]; [discriminate |].
    inversion Heq; subst first' rest'. exfalso. apply Hne.
    rewrite forallb_forall in Hall.
    specialize (Hall (fst item) (in_map fst rest item Hin)).
    now destruct (list_eq_dec Nat.eq_dec (shape (fst item)) (shape (fst first))).
  - split; [now left |]. split; [| reflexivity].
    intros _. right. apply forallb_false_exists in Hall.
    destruct Hall as [x [Hin Hx]]. apply in_map_iff in Hin.
    destruct Hin as [item [<- Hitem]].
    exists first, rest, item. split; [reflexivity |]. split; [exact Hitem |].
    now destruct (list_eq_dec Nat.eq_dec (shape (fst item)) (shape (fst first))).
Qed.
End CollationExtras.

(** * The script *)

Section PassFacts.
Variables elt Label D : Type.
Context {DS : Dataset D (Tensor elt * Label)}.


End PassFacts.


Lemma Ok_inj {A : Type} (a b : A) : Ok a = Ok b -> a = b.
Proof. intros H. now inversion H. Qed.

Lemma print_batches_until_error {elt : Type}
  (records : list (dict (BuildDataLoader.value elt Z))) (e : exn)
  (rest : list (result (dict (BuildDataLoader.value elt Z))))
  (out : list (Script.output elt)) :
  Script.print_batches (map Ok records ++ Raise e :: rest) out
  = (out ++ flat_map (fun r => [Script.Printed r; Script.Blank elt]) records,
     Raise e).
Proof.
  revert out; induction records as [| r records IH]; intros out; simpl.
  - now rewrite app_nil_r.
  - rewrite IH, <- app_assoc. reflexivity.
Qed.

Section ScriptFacts.
Context {FS : FileSystem} {API : VideoClipsAPI}.


Variable elt : Type.
Variable as_tensor : Video -> Tensor elt.

(** The loader of the test set is always built: no shuffle, no worker, a
    batch size of two. *)
Lemma test_loader_built (test_ds : HMDB51.t) (next : nat) :
  exists test_loader,
    @BuildDataLoader.loader elt Z HMDB51.t (Script.clip_dataset as_tensor)
      (BuildDataLoader.__init__ test_ds 2 false 0) next
    = (Ok test_loader, S next).
Proof.
  eexists. apply loader_returns; simpl; [lia | now left | lia].
Qed.

(** Once both datasets are constructed and the training loader is built,
    the script prints the batches of one pass over it. *)
Lemma main_after_loader (randperm : nat -> list Z) (train_ds test_ds : HMDB51.t)
  (train_loader : object (BuildDataLoader.DataLoader elt Z HMDB51.t))
  (next : nat) :
  HMDB51.__init__ "data" (Script.default_args 5) true None = Ok train_ds ->
  HMDB51.__init__ "data" (Script.default_args 5) false None = Ok test_ds ->
  @BuildDataLoader.loader elt Z HMDB51.t (Script.clip_dataset as_tensor)
    (BuildDataLoader.__init__ train_ds 2 true 0) 0
  = (Ok train_loader, next) ->
  Script.main as_tensor randperm
  = match @BuildDataLoader.dl_pass elt Z HMDB51.t
            (Script.clip_dataset as_tensor) randperm (value_of train_loader) with
    | Raise e => ([], Raise e)
    | Ok batches => Script.print_batches batches []
    end.
Proof.
  intros Htrain Htest Hloader. unfold Script.main.
  rewrite Htrain, Htest. cbv zeta. rewrite Hloader.
  destruct (test_loader_built test_ds next) as [test_loader Htest_loader].
  rewrite Htest_loader. reflexivity.
Qed.

(** When a call of [loader()] fails the script ends there. *)
Lemma main_loader_fails (randperm : nat -> list Z) (train_ds test_ds : HMDB51.t)
  (e : exn) (next : nat) :
  HMDB51.__init__ "data" (Script.default_args 5) true None = Ok train_ds ->
  HMDB51.__init__ "data" (Script.default_args 5) false None = Ok test_ds ->
  @BuildDataLoader.loader elt Z HMDB51.t (Script.clip_dataset as_tensor)
    (BuildDataLoader.__init__ train_ds 2 true 0) 0
  = (Raise e, next) ->
  Script.main as_tensor randperm = ([], Raise e).
Proof.
  intros Htrain Htest Hloader. unfold Script.main.
  rewrite Htrain, Htest. cbv zeta. rewrite Hloader. reflexivity.
Qed.
End ScriptFacts.

Section ScriptExtras.
Context {FS : FileSystem} {API : VideoClipsAPI}.
Variable elt : Type.
Variable as_tensor : Video -> Tensor elt.

(** X8.  The script constructs both datasets before it iterates.  When the
    train split cannot be listed, or the train split can and the test split
    cannot, the script ends with the error of that listing and has written
    nothing, although only the training loader is ever iterated. *)
Theorem X8_script_stops_before_output (randperm : nat -> list Z) (e : exn) :
  list_dir "data/train" = Raise e
  \/ ((exists names, list_dir "data/train" = Ok names)
      /\ list_dir "data/test" = Raise e) ->
  Script.main as_tensor randperm = ([], Raise e).
Proof.
  intros [Htrain | [[names Htrain] Htest]]; unfold Script.main.
  - unfold HMDB51.__init__ at 1. unfold HMDB51.init_with.
    change (HMDB51.split_root "data" true) with "data/train".
    rewrite Htrain. reflexivity.
  - unfold HMDB51.__init__.
    rewrite (init_with_ok ["avi"] "data" (Script.default_args 5) true None
               names Htrain).
    unfold HMDB51.init_with.
    change (HMDB51.split_root "data" false) with "data/test".
    rewrite Htest. reflexivity.
Qed.


(** X10.  The script stops at the first batch that fails.  With both
    splits constructed and the training loader built, when the pass over
    that loader gives some batch records and then a batch that raises, the
    script has written these records, each followed by an empty line, and
    ends with the error of that batch; the batches after it play no
    part. *)
Theorem X10_script_stops_at_first_failing_batch (randperm : nat -> list Z)
  (train_ds test_ds : HMDB51.t)
  (train_loader : object (BuildDataLoader.DataLoader elt Z HMDB51.t))
  (next : nat)
  (records : list (dict (BuildDataLoader.value elt Z))) (e : exn)
  (rest : list (result (dict (BuildDataLoader.value elt Z)))) :
  HMDB51.__init__ "data" (Script.default_args 5) true None = Ok train_ds ->
  HMDB51.__init__ "data" (Script.default_args 5) false None = Ok test_ds ->
  @BuildDataLoader.loader elt Z HMDB51.t (Script.clip_dataset as_tensor)
    (BuildDataLoader.__init__ train_ds 2 true 0) 0
  = (Ok train_loader, next) ->
  @BuildDataLoader.dl_pass elt Z HMDB51.t (Script.clip_dataset as_tensor)
    randperm (value_of train_loader)
  = Ok (map Ok records ++ Raise e :: rest) ->
  Script.main as_tensor randperm
  = (flat_map (fun r => [Script.Printed r; Script.Blank elt]) records, Raise e).
Proof.
  intros Htrain Htest Hloader Hpass.
  rewrite (main_after_loader elt as_tensor randperm train_ds test_ds
             train_loader next Htrain Htest Hloader).
  rewrite Hpass.
  apply (print_batches_until_error records e rest []).
Qed.

(** X12.  The script on a training set without clips.  With both splits
    constructed, the call of [loader()] for the shuffled training loader
    asks the length of the training set: when the length raises (as it does
    with no video file in the split) the script ends with that error, and
    when the length is not above zero it ends with [ValueError]; in both
    cases it has written nothing. *)
Theorem X12_script_on_empty_training_set (randperm : nat -> list Z)
  (train_ds test_ds : HMDB51.t) :
  HMDB51.__init__ "data" (Script.default_args 5) true None = Ok train_ds ->
  HMDB51.__init__ "data" (Script.default_args 5) false None = Ok test_ds ->
  (forall e,
     vc_num_clips (HMDB51.video_clips train_ds) = Raise e ->
     Script.main as_tensor randperm = ([], Raise e))
  /\ (forall n,
        vc_num_clips (HMDB51.video_clips train_ds) = Ok n -> n <= 0 ->
        Script.main as_tensor randperm = ([], Raise ValueError)).
Proof.
  intros Htrain Htest. split.
  - intros e He.
    apply (main_loader_fails elt as_tensor randperm train_ds test_ds e 0
             Htrain Htest).
    apply loader_length_error; simpl; [lia | reflexivity | exact He].
  - intros n Hn Hle.
    apply (main_loader_fails elt as_tensor randperm train_ds test_ds
             ValueError 0 Htrain Htest).
    apply (loader_empty_shuffle elt Z HMDB51.t _ 0 n); simpl;
      [lia | reflexivity | exact Hn | exact Hle].
Qed.
End ScriptExtras.

(** * What the sample list rests on *)

Section Locality.
Context {API : VideoClipsAPI}.

(** The sample list rests on the walks of the class directories and on
    the files these walks name, and on nothing else of the directory
    tree. *)
Lemma samples_of_local (FS1 FS2 : FileSystem) (root : string)
  (classes : list string) :
  (forall class_, In class_ classes ->
     @os_walk FS1 (os_path_join root class_)
     = @os_walk FS2 (os_path_join root class_)) ->
  (forall class_ dirpath dirs fnames fname,
     In class_ classes ->
     In (dirpath, dirs, fnames) (@os_walk FS1 (os_path_join root class_)) ->
     In fname fnames ->
     @os_path_isfile FS1 (os_path_join dirpath fname)
     = @os_path_isfile FS2 (os_path_join dirpath fname)) ->
  @samples_of FS1 root classes = @samples_of FS2 root classes.
Proof.
  intros Hwalk Hfile. unfold samples_of.
  apply flat_map_ext_in. intros c Hc.
  apply in_sorted in Hc. apply (proj1 (class_to_idx_keys_in classes c)) in Hc.
  unfold class_samples.
  destruct (dict_find (HMDB51.class_to_idx_of classes) c); [| reflexivity].
  f_equal. unfold Spec.files_of_class. rewrite <- (Hwalk c Hc).
  apply flat_map_ext_in. intros [[dirpath dirs] fnames] Hentry.
  apply in_sorted in Hentry. unfold Spec.files_of_entry.
  apply filter_ext_in. intros path Hpath. apply in_map_iff in Hpath.
  destruct Hpath as [fname [<- Hfname]]. apply in_sorted in Hfname.
  exact (Hfile c dirpath dirs fnames fname Hc Hentry Hfname).
Qed.

(** X11.  The class list, the sample list and the index mapping of a
    dataset rest on the listing of the split directory, on the walks of the
    class directories under it and on whether the files these walks name
    are regular files, and on nothing else in the tree.  Of two directory
    trees that agree on these (they may differ anywhere else, in the other
    split for one), an error of the listing comes out of both
    constructions, and two datasets constructed from the same arguments
    have the same classes, samples and index mapping.  (Their clip
    collections are another matter: they come from what the files
    hold.) *)
Theorem X11_samples_rest_on_the_split_only (FS1 FS2 : FileSystem)
  (root : string) (args : clip_args Metadata) (train : bool)
  (transform : option (Video -> Video)) :
  @list_dir FS1 (HMDB51.split_root root train)
  = @list_dir FS2 (HMDB51.split_root root train) ->
  (forall names class_,
     @list_dir FS1 (HMDB51.split_root root train) = Ok names ->
     In class_ names ->
     @os_walk FS1 (os_path_join (HMDB51.split_root root train) class_)
     = @os_walk FS2 (os_path_join (HMDB51.split_root root train) class_)) ->
  (forall names class_ dirpath dirs fnames fname,
     @list_dir FS1 (HMDB51.split_root root train) = Ok names ->
     In class_ names ->
     In (dirpath, dirs, fnames)
       (@os_walk FS1 (os_path_join (HMDB51.split_root root train) class_)) ->
     In fname fnames ->
     @os_path_isfile FS1 (os_path_join dirpath fname)
     = @os_path_isfile FS2 (os_path_join dirpath fname)) ->
  (forall e,
     @list_dir FS1 (HMDB51.split_root root train) = Raise e ->
     @HMDB51.__init__ FS1 API root args train transform = Raise e
     /\ @HMDB51.__init__ FS2 API root args train transform = Raise e)
  /\ (forall ds1 ds2 : HMDB51.t,
        @HMDB51.__init__ FS1 API root args train transform = Ok ds1 ->
        @HMDB51.__init__ FS2 API root args train transform = Ok ds2 ->
        HMDB51.classes ds1 = HMDB51.classes ds2
        /\ HMDB51.samples ds1 = HMDB51.samples ds2
        /\ HMDB51.indices ds1 = HMDB51.indices ds2).
Proof.
  intros Hlist Hwalk Hfile. split.
  - intros e He. unfold HMDB51.__init__, HMDB51.init_with.
    rewrite <- Hlist, He. split; reflexivity.
  - intros ds1 ds2 H1 H2.
    apply (init_with_inv ["avi"]) in H1. destruct H1 as [names [Hdir1 ->]].
    apply (init_with_inv ["avi"]) in H2. destruct H2 as [names' [Hdir2 ->]].
    rewrite <- Hlist, Hdir1 in Hdir2. inversion Hdir2; subst names'.
    assert (Hsamples : @samples_of FS1 (HMDB51.split_root root train)
                         (sorted str_ltb names)
                       = @samples_of FS2 (HMDB51.split_root root train)
                           (sorted str_ltb names)).
    { apply samples_of_local.
      - intros c Hc. apply (Hwalk names c Hdir1). now apply in_sorted in Hc.
      - intros c dirpath dirs fnames fname Hc.
        apply (Hfile names c dirpath dirs fnames fname Hdir1).
        now apply in_sorted in Hc. }
    cbn [constructed HMDB51.classes HMDB51.samples HMDB51.indices].
    rewrite Hsamples. repeat split.
Qed.
End Locality.

(** * The further properties at work on the scenario *)

Lemma X1_samples_grouped_by_class_witness :
  list_dir (HMDB51.split_root "data" true) = Ok ["walk"; "run"]
  /\ NoDup ["walk"; "run"]
  /\ exists ds,
       HMDB51.__init__ "data" Fixture.args true None = Ok ds
       /\ StronglySorted (fun a b => snd a <= snd b) (HMDB51.samples ds)
       /\ Forall (fun s => 0 <= snd s < Z.of_nat (length (HMDB51.classes ds)))
            (HMDB51.samples ds)
       /\ length (HMDB51.classes ds) = 2%nat.
Proof.
  assert (Hdir : list_dir (HMDB51.split_root "data" true) = Ok ["walk"; "run"])
    by reflexivity.
  split; [exact Hdir |]. split; [exact scenario_names_NoDup |].
  exact (X1_samples_grouped_by_class "data" Fixture.args true None
           ["walk"; "run"] Hdir scenario_names_NoDup).
Defined.

Lemma X2_samples_are_the_walked_files_witness :
  list_dir (HMDB51.split_root "data" true) = Ok ["walk"; "run"]
  /\ NoDup ["walk"; "run"]
  /\ exists ds,
       HMDB51.__init__ "data" Fixture.args true None = Ok ds
       /\ (In ("data/train/run/pipe", 0) (HMDB51.samples ds)
           <-> exists class_ dirpath dirs fnames fname,
                 0 <= 0
                 /\ nth_error (HMDB51.classes ds) (Z.to_nat 0) = Some class_
                 /\ In (dirpath, dirs, fnames)
                      (os_walk
                         (os_path_join (HMDB51.split_root "data" true) class_))
                 /\ In fname fnames
                 /\ "data/train/run/pipe" = os_path_join dirpath fname
                 /\ os_path_isfile "data/train/run/pipe" = true).
Proof.
  assert (Hdir : list_dir (HMDB51.split_root "data" true) = Ok ["walk"; "run"])
    by reflexivity.
  split; [exact Hdir |]. split; [exact scenario_names_NoDup |].
  destruct (@X2_samples_are_the_walked_files Fixture.fs Fixture.api
              "data" Fixture.args true None ["walk"; "run"] Hdir
              scenario_names_NoDup) as [ds [Hinit Hiff]].
  exists ds. split; [exact Hinit |]. exact (Hiff "data/train/run/pipe" 0).
Defined.

Lemma X4_item_by_cases_witness :
  HMDB51.__init__ "data" Fixture.args true None = Ok Fixture.train_dataset
  /\ vc_get_clip (HMDB51.video_clips Fixture.train_dataset) 2
     = Ok (Fixture.frame 40, tt, tt, 3)
  /\ 0 <= 3 < Z.of_nat (length (HMDB51.samples Fixture.train_dataset))
  /\ exists path label,
       nth_error (HMDB51.samples Fixture.train_dataset) (Z.to_nat 3)
       = Some (path, label)
       /\ HMDB51.__getitem__ 2 Fixture.train_dataset
          = (Ok (Fixture.frame 40, label), Fixture.train_dataset).
Proof.
  assert (Hinit : HMDB51.__init__ "data" Fixture.args true None
                  = Ok Fixture.train_dataset) by reflexivity.
  assert (Hclip : vc_get_clip (HMDB51.video_clips Fixture.train_dataset) 2
                  = Ok (Fixture.frame 40, tt, tt, 3)) by reflexivity.
  assert (Hrange : 0 <= 3 < Z.of_nat (length (HMDB51.samples Fixture.train_dataset)))
    by (simpl; lia).
  split; [exact Hinit |]. split; [exact Hclip |]. split; [exact Hrange |].
  destruct (@X4_item_by_cases Fixture.fs Fixture.api "data" Fixture.args true
              None Fixture.train_dataset 2 Hinit) as [_ Hok].
  destruct (Hok (Fixture.frame 40) tt tt 3 Hclip) as [Hfront _].
  exact (Hfront Hrange).
Defined.

Lemma X5_videos_align_with_samples_witness :
  HMDB51.__init__ "data" Fixture.args true None = Ok Fixture.train_dataset
  /\ vc_video_paths (HMDB51.video_clips Fixture.train_dataset)
     = map fst (HMDB51.samples Fixture.train_dataset)
  /\ length (HMDB51.indices Fixture.train_dataset)
     = length (HMDB51.samples Fixture.train_dataset)
  /\ NoDup (HMDB51.indices Fixture.train_dataset)
  /\ (forall k : Z,
        0 <= k < Z.of_nat (length (HMDB51.samples Fixture.train_dataset)) ->
        py_getitem (HMDB51.indices Fixture.train_dataset) k = Ok k).
Proof.
  assert (Hinit : HMDB51.__init__ "data" Fixture.args true None
                  = Ok Fixture.train_dataset) by reflexivity.
  split; [exact Hinit |].
  exact (@X5_videos_align_with_samples Fixture.fs Fixture.api
           (memory_clips_contract Fixture.store)
           "data" Fixture.args true None Fixture.train_dataset Hinit).
Defined.

Lemma X6_transform_only_touches_the_clip_witness :
  HMDB51.__init__ "data" Fixture.args true None = Ok Fixture.train_dataset
  /\ HMDB51.__init__ "data" Fixture.args true (Some Fixture.brighten)
     = Ok Fixture.brightened_dataset
  /\ fst (HMDB51.__getitem__ 3 Fixture.train_dataset)
     = Ok (Fixture.frame 30, 1)
  /\ fst (HMDB51.__getitem__ 3 Fixture.brightened_dataset)
     = Ok (Fixture.frame 31, 1).
Proof.
  assert (Hplain : HMDB51.__init__ "data" Fixture.args true None
                   = Ok Fixture.train_dataset) by reflexivity.
  assert (Hbright : HMDB51.__init__ "data" Fixture.args true
                      (Some Fixture.brighten)
                    = Ok Fixture.brightened_dataset) by reflexivity.
  assert (Hitem : fst (HMDB51.__getitem__ 3 Fixture.train_dataset)
                  = Ok (Fixture.frame 30, 1)) by reflexivity.
  split; [exact Hplain |]. split; [exact Hbright |]. split; [exact Hitem |].
  destruct (@X6_transform_only_touches_the_clip Fixture.fs Fixture.api
              "data" Fixture.args true Fixture.brighten
              Fixture.train_dataset Fixture.brightened_dataset Hplain Hbright)
    as [_ [_ [_ Hall]]].
  rewrite (Hall 3), Hitem. reflexivity.
Defined.

Lemma X8_script_stops_before_output_witness :
  (@list_dir (Fixture.tree_fs "data" Fixture.train_only) "data/train"
   = Raise OSError
   \/ ((exists names,
          @list_dir (Fixture.tree_fs "data" Fixture.train_only) "data/train"
          = Ok names)
       /\ @list_dir (Fixture.tree_fs "data" Fixture.train_only) "data/test"
          = Raise OSError))
  /\ @Script.main (Fixture.tree_fs "data" Fixture.train_only) Fixture.api Z
       (fun video => video) Fixture.backwards
     = ([], Raise OSError).
Proof.
  assert (H : @list_dir (Fixture.tree_fs "data" Fixture.train_only) "data/train"
              = Raise OSError
              \/ ((exists names,
                     @list_dir (Fixture.tree_fs "data" Fixture.train_only)
                       "data/train" = Ok names)
                  /\ @list_dir (Fixture.tree_fs "data" Fixture.train_only)
                       "data/test" = Raise OSError)).
  { right. split; [exists ["run"]; reflexivity | reflexivity]. }
  split; [exact H |].
  exact (@X8_script_stops_before_output
           (Fixture.tree_fs "data" Fixture.train_only) Fixture.api Z
           (fun video => video) Fixture.backwards OSError H).
Defined.



Lemma X10_script_stops_at_first_failing_batch_witness :
  @HMDB51.__init__ Fixture.fs Fixture.uneven_api "data"
    (Script.default_args 5) true None
  = Ok Fixture.uneven_train_dataset
  /\ @HMDB51.__init__ Fixture.fs Fixture.uneven_api "data"
       (Script.default_args 5) false None
     = Ok Fixture.uneven_test_dataset
  /\ (exists train_loader,
        @BuildDataLoader.loader Z Z _
          (@Script.clip_dataset Fixture.uneven_api Z (fun video => video))
          (BuildDataLoader.__init__ Fixture.uneven_train_dataset 2 true 0) 0
        = (Ok train_loader, 1%nat))
  /\ @Script.main Fixture.fs Fixture.uneven_api Z (fun video => video) range
     = ([Script.Printed
           [("videos",
             BuildDataLoader.VTensor Z
               {| shape := [2; 1; 1]%nat; data := [10; 11] |});
            ("labels", BuildDataLoader.VList Z [0; 0])];
         Script.Blank Z],
        Raise RuntimeError).
Proof.
  assert (Htrain : @HMDB51.__init__ Fixture.fs Fixture.uneven_api "data"
                     (Script.default_args 5) true None
                   = Ok Fixture.uneven_train_dataset) by reflexivity.
  assert (Htest : @HMDB51.__init__ Fixture.fs Fixture.uneven_api "data"
                    (Script.default_args 5) false None
                  = Ok Fixture.uneven_test_dataset) by reflexivity.
  set (train_loader :=
         {| py_id := 0%nat;
            value_of :=
              {| BuildDataLoader.dl_dataset := Fixture.uneven_train_dataset;
                 BuildDataLoader.dl_batch_size := 2;
                 BuildDataLoader.dl_shuffle := true;
                 BuildDataLoader.dl_num_workers := 0;
                 BuildDataLoader.dl_collate_fn :=
                   @BuildDataLoader.collect_fn Z Z _
                     (BuildDataLoader.__init__
                        Fixture.uneven_train_dataset 2 true 0);
                 BuildDataLoader.dl_drop_last := false |} |}).
  assert (Hloader :
            @BuildDataLoader.loader Z Z _
              (@Script.clip_dataset Fixture.uneven_api Z (fun video => video))
              (BuildDataLoader.__init__ Fixture.uneven_train_dataset 2 true 0)
              0%nat
            = (Ok train_loader, 1%nat)) by reflexivity.
  split; [exact Htrain |]. split; [exact Htest |].
  split; [exists train_loader; exact Hloader |].
  exact (@X10_script_stops_at_first_failing_batch Fixture.fs Fixture.uneven_api
           Z (fun video => video) range
           Fixture.uneven_train_dataset Fixture.uneven_test_dataset
           train_loader 1%nat
           [[("videos",
              BuildDataLoader.VTensor Z
                {| shape := [2; 1; 1]%nat; data := [10; 11] |});
             ("labels", BuildDataLoader.VList Z [0; 0])]]
           RuntimeError [] Htrain Htest Hloader eq_refl).
Defined.

Lemma X12_script_on_empty_training_set_witness :
  (@HMDB51.__init__ (Fixture.tree_fs "data" Fixture.empty_train) Fixture.api
     "data" (Script.default_args 5) true None
   = Ok Fixture.empty_train_dataset
   /\ @HMDB51.__init__ (Fixture.tree_fs "data" Fixture.empty_train) Fixture.api
        "data" (Script.default_args 5) false None
      = Ok Fixture.empty_test_dataset
   /\ HMDB51.samples Fixture.empty_train_dataset = []
   /\ vc_num_clips (HMDB51.video_clips Fixture.empty_train_dataset)
      = Raise IndexError
   /\ @Script.main (Fixture.tree_fs "data" Fixture.empty_train) Fixture.api Z
        (fun video => video) Fixture.backwards
      = ([], Raise IndexError))
  /\ (@HMDB51.__init__ (Fixture.tree_fs "data" Fixture.clipless_train)
        Fixture.api "data" (Script.default_args 5) true None
      = Ok Fixture.clipless_train_dataset
      /\ @HMDB51.__init__ (Fixture.tree_fs "data" Fixture.clipless_train)
           Fixture.api "data" (Script.default_args 5) false None
         = Ok Fixture.clipless_test_dataset
      /\ vc_num_clips (HMDB51.video_clips Fixture.clipless_train_dataset)
         = Ok 0
      /\ @Script.main (Fixture.tree_fs "data" Fixture.clipless_train)
           Fixture.api Z (fun video => video) Fixture.backwards
         = ([], Raise ValueError)).
Proof.
  split.
  - assert (Htrain : @HMDB51.__init__
                       (Fixture.tree_fs "data" Fixture.empty_train) Fixture.api
                       "data" (Script.default_args 5) true None
                     = Ok Fixture.empty_train_dataset) by reflexivity.
    assert (Htest : @HMDB51.__init__
                      (Fixture.tree_fs "data" Fixture.empty_train) Fixture.api
                      "data" (Script.default_args 5) false None
                    = Ok Fixture.empty_test_dataset) by reflexivity.
    assert (Hlen : vc_num_clips
                     (HMDB51.video_clips Fixture.empty_train_dataset)
                   = Raise IndexError) by reflexivity.
    split; [exact Htrain |]. split; [exact Htest |].
    split; [reflexivity |]. split; [exact Hlen |].
    exact (proj1 (@X12_script_on_empty_training_set
                    (Fixture.tree_fs "data" Fixture.empty_train) Fixture.api Z
                    (fun video => video) Fixture.backwards
                    Fixture.empty_train_dataset Fixture.empty_test_dataset
                    Htrain Htest)
             IndexError Hlen).
  - assert (Htrain : @HMDB51.__init__
                       (Fixture.tree_fs "data" Fixture.clipless_train)
                       Fixture.api "data" (Script.default_args 5) true None
                     = Ok Fixture.clipless_train_dataset) by reflexivity.
    assert (Htest : @HMDB51.__init__
                      (Fixture.tree_fs "data" Fixture.clipless_train)
                      Fixture.api "data" (Script.default_args 5) false None
                    = Ok Fixture.clipless_test_dataset) by reflexivity.
    assert (Hlen : vc_num_clips
                     (HMDB51.video_clips Fixture.clipless_train_dataset)
                   = Ok 0) by reflexivity.
    split; [exact Htrain |]. split; [exact Htest |]. split; [exact Hlen |].
    apply (proj2 (@X12_script_on_empty_training_set
                    (Fixture.tree_fs "data" Fixture.clipless_train)
                    Fixture.api Z
                    (fun video => video) Fixture.backwards
                    Fixture.clipless_train_dataset
                    Fixture.clipless_test_dataset
                    Htrain Htest)
             0 Hlen).
    lia.
Defined.

Lemma scenario_same_train_walks (names : list string) (class_ : string) :
  @list_dir Fixture.fs (HMDB51.split_root "data" true) = Ok names ->
  In class_ names ->
  @os_walk Fixture.fs (os_path_join (HMDB51.split_root "data" true) class_)
  = @os_walk (Fixture.tree_fs "data" Fixture.tree_other_test)
      (os_path_join (HMDB51.split_root "data" true) class_).
Proof.
  intros Hnames. apply Ok_inj in Hnames. subst names.
  intros [<- | [<- | []]]; reflexivity.
Qed.

Lemma scenario_same_train_files (names : list string) (class_ dirpath : string)
  (dirs fnames : list string) (fname : string) :
  @list_dir Fixture.fs (HMDB51.split_root "data" true) = Ok names ->
  In class_ names ->
  In (dirpath, dirs, fnames)
    (@os_walk Fixture.fs
       (os_path_join (HMDB51.split_root "data" true) class_)) ->
  In fname fnames ->
  @os_path_isfile Fixture.fs (os_path_join dirpath fname)
  = @os_path_isfile (Fixture.tree_fs "data" Fixture.tree_other_test)
      (os_path_join dirpath fname).
Proof.
  intros Hnames. apply Ok_inj in Hnames. subst names.
  intros [<- | [<- | []]] Hentry Hfname; vm_compute in Hentry;
    repeat match goal with
           | H : _ \/ _ |- _ => destruct H as [H | H]
           | H : False |- _ => destruct H
           | H : (_, _, _) = (_, _, _) |- _ => inversion H; clear H; subst
           end;
    simpl in Hfname;
    repeat match goal with
           | H : _ \/ _ |- _ => destruct H as [H | H]
           | H : False |- _ => destruct H
           end;
    subst; reflexivity.
Qed.

Lemma X11_samples_rest_on_the_split_only_witness :
  @list_dir Fixture.fs (HMDB51.split_root "data" true)
  = @list_dir (Fixture.tree_fs "data" Fixture.tree_other_test)
      (HMDB51.split_root "data" true)
  /\ @list_dir Fixture.fs "data/test" = Ok ["run"; "walk"]
  /\ @list_dir (Fixture.tree_fs "data" Fixture.tree_other_test) "data/test"
     = Ok ["jump"]
  /\ @HMDB51.__init__ Fixture.fs Fixture.api "data" Fixture.args true None
     = Ok Fixture.train_dataset
  /\ exists other,
       @HMDB51.__init__ (Fixture.tree_fs "data" Fixture.tree_other_test)
         Fixture.api "data" Fixture.args true None
       = Ok other
       /\ HMDB51.classes other = ["run"; "walk"]
       /\ HMDB51.samples other
          = [("data/train/run/a.avi", 0); ("data/train/run/b.avi", 0);
             ("data/train/run/notes.txt", 0);
             ("data/train/run/extra/d.avi", 0); ("data/train/walk/c.avi", 1)]
       /\ HMDB51.indices other = [0; 1; 2; 3; 4].
Proof.
  assert (Hlist : @list_dir Fixture.fs (HMDB51.split_root "data" true)
                  = @list_dir (Fixture.tree_fs "data" Fixture.tree_other_test)
                      (HMDB51.split_root "data" true)) by reflexivity.
  assert (H1 : @HMDB51.__init__ Fixture.fs Fixture.api "data" Fixture.args
                 true None
               = Ok Fixture.train_dataset) by reflexivity.
  split; [exact Hlist |]. split; [reflexivity |]. split; [reflexivity |].
  split; [exact H1 |].
  destruct (@HMDB51.__init__ (Fixture.tree_fs "data" Fixture.tree_other_test)
              Fixture.api "data" Fixture.args true None)
    as [other | e] eqn:H2; [| discriminate H2].
  exists other. split; [reflexivity |].
  destruct (@X11_samples_rest_on_the_split_only Fixture.api Fixture.fs
              (Fixture.tree_fs "data" Fixture.tree_other_test)
              "data" Fixture.args true None
              Hlist scenario_same_train_walks scenario_same_train_files)
    as [_ Hsame].
  destruct (Hsame Fixture.train_dataset other H1 H2)
    as [Hclasses [Hsamples Hindices]].
  rewrite <- Hclasses, <- Hsamples, <- Hindices.
  split; [reflexivity |]. split; reflexivity.
Defined.
